(** * Meal Receipts Tracker API

    A shallow embedding of [main.py]: the request models and their
    validation, the month-range helper, and the six data endpoints, followed by
    the properties of the specification that concern them.

    Conventions of the embedding.
    - Python [str] values are [string]s (characters with a code below 256),
      but for the [month] argument, whose digits can be of any script: it is
      a list of code points ([unicode]).
    - Python [float]s are binary64 numbers ([PrimFloat.float]); [x - y] is the
      IEEE subtraction and [round(x, 2)] is [py_round2].
    - A Python dict with string keys is a [gmap string _].
    - Raising an exception is the [Raise] result; nothing in [main.py] catches
      an exception except the [ValueError] handler of [parse_month].
    - A handler is a value of [prog]: a tree whose nodes are the calls
      [.execute()] sent to the store, each followed by what the code does with
      the answer.  [run] plays such a tree against an arbitrary store.
    - What a handler reads from outside is an argument: the store client
      ([supabase_client]), the date of the day ([today], for
      [datetime.utcnow().date()]) and what the code takes from Python and
      the C library ([runtime]). *)

From Stdlib Require Import ZArith Floats String Ascii List Bool Lia DecimalString.
From stdpp Require Import gmap strings.
Import ListNotations.

#[local] Open Scope string_scope.
#[local] Open Scope Z_scope.
#[local] Set Warnings "-inexact-float".

(** ** Exceptions and results *)

Inductive exn : Type :=
| HTTPException (status_code : Z) (detail : string)
| ValidationError (detail : string)
| ValueError
| TypeError
| KeyError
| OverflowError
| StoreError (message : string).

Inductive result (A : Type) : Type :=
| Ok (a : A)
| Raise (e : exn).

Arguments Ok {A} a.
Arguments Raise {A} e.

Definition bind {A B : Type} (m : result A) (k : A -> result B) : result B :=
  match m with
  | Ok a => k a
  | Raise e => Raise e
  end.

Notation "'let?' x ':=' m 'in' k" := (bind m (fun x => k))
  (at level 10, x pattern, m at level 100, k at level 200).

(** The status line FastAPI answers with: 200 for a value, the status of an
    [HTTPException], 422 for a request body that fails validation, and 500 for
    any other exception that leaves the handler. *)
Definition status_of {A : Type} (r : result A) : Z :=
  match r with
  | Ok _ => 200
  | Raise (HTTPException code _) => code
  | Raise (ValidationError _) => 422
  | Raise _ => 500
  end.

Definition is_client_error {A : Type} (r : result A) : bool :=
  (400 <=? status_of r) && (status_of r <? 500).

Definition is_server_error {A : Type} (r : result A) : bool :=
  (500 <=? status_of r) && (status_of r <? 600).

(** ** Values exchanged with the store *)

(** A cell of a table row, as the JSON decoder of the client hands it over;
    the columns of the two tables hold dates, texts and numbers. *)
Inductive scalar : Type :=
| SNone
| SBool (b : bool)
| SInt (n : Z)
| SFloat (x : float)
| SStr (s : string).

(** A row of a table: a dict from column names to cells. *)
Abbreviation row := (gmap string scalar).

(** The [data] of an RPC response: any JSON value. *)
#[warnings="-register-all"]
Inductive json : Type :=
| JScalar (v : scalar)
| JList (xs : list json)
| JDict (d : gmap string json).

(** Truth value of a Python object ([bool(v)]). *)
Definition scalar_truthy (v : scalar) : bool :=
  match v with
  | SNone => false
  | SBool b => b
  | SInt n => negb (n =? 0)
  | SFloat x => negb (PrimFloat.eqb x 0%float)
  | SStr s => negb (String.eqb s "")
  end.

Definition json_truthy (v : json) : bool :=
  match v with
  | JScalar s => scalar_truthy s
  | JList xs => match xs with [] => false | _ :: _ => true end
  | JDict d => match map_to_list d with [] => false | _ :: _ => true end
  end.

(** ** The parts of the Python runtime the handlers call *)

(** Three built-ins are taken as given: [float(s)] on a string ([None] stands
    for [ValueError]), [sum] over floats starting from the integer 0, and the
    text [str(x)] of a float.  So is one trait of the C library that
    [strftime] calls: whether its [%Y] writes a year below 1000 on four
    digits (it does not with glibc, where year 999 is written [999]). *)
Record runtime : Type := {
  float_of_str : string -> option float;
  float_sum : list float -> float;
  float_repr : float -> string;
  year_padded : bool
}.

(** [float(n)] for an integer: the nearest binary64 number, ties to even;
    [OverflowError] when it is out of range. *)
Definition float_of_Z (n : Z) : result float :=
  let x := SF2Prim (binary_normalize prec emax n 0 false) in
  if PrimFloat.is_infinity x then Raise OverflowError else Ok x.

(** [float(v)] for a cell. *)
Definition float_of_scalar (rt : runtime) (v : scalar) : result float :=
  match v with
  | SNone => Raise TypeError
  | SBool b => Ok (if b then 1%float else 0%float)
  | SInt n => float_of_Z n
  | SFloat x => Ok x
  | SStr s => match float_of_str rt s with
              | Some x => Ok x
              | None => Raise ValueError
              end
  end.

Definition py_float (rt : runtime) (v : json) : result float :=
  match v with
  | JScalar s => float_of_scalar rt s
  | JList _ | JDict _ => Raise TypeError
  end.

(** Quotient of [num / den] rounded to the nearest integer, ties to even
    ([den] positive). *)
Definition half_even (num den : Z) : Z :=
  let q := num / den in
  let r := num mod den in
  match 2 * r ?= den with
  | Lt => q
  | Gt => q + 1
  | Eq => if Z.even q then q else q + 1
  end.

(** [round(x, 2)]: the exact value of [x] is rounded to a whole number [n] of
    hundredths, ties to even, and the result is the binary64 number nearest to
    [n / 100].  The sign is kept, and NaN and the infinities are returned as
    they are. *)
Definition py_round2 (x : float) : float :=
  match Prim2SF x with
  | S754_finite s m e =>
      let n := if 0 <=? e then Z.pos m * 100 * 2 ^ e
               else half_even (Z.pos m * 100) (2 ^ (- e)) in
      match n with
      | Z.pos p => SF2Prim (SFdiv prec emax (S754_finite s p 0) (S754_finite false 100 0))
      | _ => if s then (-0)%float else 0%float
      end
  | _ => x
  end.

(** [str(v)] for a cell, as an f-string renders it. *)
Definition py_str (rt : runtime) (v : scalar) : string :=
  match v with
  | SNone => "None"
  | SBool b => if b then "True" else "False"
  | SInt n => NilZero.string_of_int (Z.to_int n)
  | SFloat x => float_repr rt x
  | SStr s => s
  end.

(** [s.lower()] on characters below 256: the ASCII capitals and the capitals
    of the Latin-1 block (192 to 222, the multiplication sign 215 apart). *)
Definition lower_char (c : ascii) : ascii :=
  let n := N_of_ascii c in
  if ((65 <=? n) && (n <=? 90) || (192 <=? n) && (n <=? 222) && negb (n =? 215))%N
  then ascii_of_N (n + 32) else c.

Fixpoint lower (s : string) : string :=
  match s with
  | EmptyString => EmptyString
  | String c rest => String (lower_char c) (lower rest)
  end.

(** ** Calendar dates *)

Record date : Type := mkdate { year : Z; month : Z; day : Z }.

Definition MINYEAR : Z := 1.
Definition MAXYEAR : Z := 9999.

Definition is_leap (y : Z) : bool :=
  (y mod 4 =? 0) && (negb (y mod 100 =? 0) || (y mod 400 =? 0)).

Definition days_in_month (y m : Z) : Z :=
  match m with
  | 1 | 3 | 5 | 7 | 8 | 10 | 12 => 31
  | 4 | 6 | 9 | 11 => 30
  | 2 => if is_leap y then 29 else 28
  | _ => 0
  end.

(** [datetime.date(y, m, d)]: [ValueError] outside the calendar. *)
Definition date_new (y m d : Z) : result date :=
  if (MINYEAR <=? y) && (y <=? MAXYEAR) && (1 <=? m) && (m <=? 12)
     && (1 <=? d) && (d <=? days_in_month y m)
  then Ok (mkdate y m d) else Raise ValueError.

(** [d.replace(year=..., month=..., day=...)]; an absent keyword keeps the
    field. *)
Definition replace (d : date) (y m dd : option Z) : result date :=
  date_new (default (year d) y) (default (month d) m) (default (day d) dd).

(** [start < end] on dates. *)
Definition date_ltb (a b : date) : bool :=
  (year a <? year b)
  || (year a =? year b) && ((month a <? month b)
                            || (month a =? month b) && (day a <? day b)).

Definition digit (n : Z) : ascii := ascii_of_N (48 + Z.to_N (n mod 10)).

Definition zfill2 (n : Z) : string :=
  String (digit (n / 10)) (String (digit n) "").

Definition zfill4 (n : Z) : string :=
  String (digit (n / 1000)) (String (digit (n / 100)) (zfill2 n)).

(** [d.isoformat()]. *)
Definition isoformat (d : date) : string :=
  zfill4 (year d) ++ "-" ++ zfill2 (month d) ++ "-" ++ zfill2 (day d).

(** [d.strftime("%Y-%m")]: the year as the C library writes it, on four
    digits or without leading zeros, and the month on two digits. *)
Definition strftime_Ym (rt : runtime) (d : date) : string :=
  (if year_padded rt then zfill4 (year d) else NilZero.string_of_int (Z.to_int (year d)))
  ++ "-" ++ zfill2 (month d).

(** ** Texts of any script *)

(** The [month] argument comes from the query string and can hold any
    character, and [strptime] reads the digits of every script: this one
    text is kept as the list of its code points.  [unicode_of] reads a
    [string] as such a list. *)
Definition unicode : Type := list N.

Definition ord (c : ascii) : N := N_of_ascii c.

Definition unicode_of (s : string) : unicode := map ord (list_ascii_of_string s).

(** The code points of the digit zero of each script in Unicode 14.0, the
    version of Python 3.11; the nine code points that follow a zero are its
    digits one to nine.  These 660 characters are the category [Nd]: the ones
    that [\d] matches in a pattern, and that [int] reads. *)
Definition decimal_zeros : list N :=
  [48; 1632; 1776; 1984; 2406; 2534; 2662; 2790; 2918; 3046; 3174; 3302; 3430;
   3558; 3664; 3792; 3872; 4160; 4240; 6112; 6160; 6470; 6608; 6784; 6800;
   6992; 7088; 7232; 7248; 42528; 43216; 43264; 43472; 43504; 43600; 44016;
   65296; 66720; 68912; 69734; 69872; 69942; 70096; 70384; 70736; 70864;
   71248; 71360; 71472; 71904; 72016; 72784; 73040; 73120; 92768; 92864;
   93008; 120782; 120792; 120802; 120812; 120822; 123200; 123632; 125264;
   130032]%N.

(** [unicodedata.decimal(chr(c), None)]. *)
Definition decimal (c : N) : option Z :=
  match List.find (fun z => (z <=? c) && (c <? z + 10))%N decimal_zeros with
  | Some z => Some (Z.of_N (c - z))
  | None => None
  end.

(** [\d]. *)
Definition is_digit (c : N) : bool :=
  match decimal c with
  | Some _ => true
  | None => false
  end.

Definition digit_val (c : N) : Z :=
  match decimal c with
  | Some v => v
  | None => 0
  end.

(** A class of ASCII digits such as [[0-2]]: the digits from [lo] to [hi]. *)
Definition in_range (lo hi : Z) (c : N) : bool :=
  (48 + lo <=? Z.of_N c) && (Z.of_N c <=? 48 + hi).

(** The [%m] directive of [strptime]: the alternatives [1[0-2]], [0[1-9]] and
    [[1-9]] tried in this order; the month read and the text left over. *)
Definition match_month (s : unicode) : option (Z * unicode) :=
  match s with
  | c :: c2 :: rest =>
      if (c =? ord "1")%N && in_range 0 2 c2 then Some (10 + digit_val c2, rest)
      else if (c =? ord "0")%N && in_range 1 9 c2 then Some (digit_val c2, rest)
      else if in_range 1 9 c then Some (digit_val c, c2 :: rest)
      else None
  | [c] => if in_range 1 9 c then Some (digit_val c, []) else None
  | [] => None
  end.

(** [datetime.strptime(s, "%Y-%m").date()]: the pattern is
    [(?P<Y>\d\d\d\d)-(?P<m>1[0-2]|0[1-9]|[1-9])], with nothing left over; the
    year is [int] of the four digits, and the date is the first day of that
    month. *)
Definition strptime_Ym (s : unicode) : result date :=
  match s with
  | a :: b :: c :: d :: h :: rest =>
      if is_digit a && is_digit b && is_digit c && is_digit d && (h =? ord "-")%N then
        match match_month rest with
        | Some (m, []) =>
            date_new (1000 * digit_val a + 100 * digit_val b
                      + 10 * digit_val c + digit_val d) m 1
        | _ => Raise ValueError
        end
      else Raise ValueError
  | _ => Raise ValueError
  end.

(** Lines 73-88.  [today] is [datetime.utcnow().date()]. *)
Definition parse_month (today : date) (month_ : option unicode) : result (date * date) :=
  let? start :=
    match month_ with
    | None | Some [] => replace today None None (Some 1)
    | Some m =>
        match (let? d := strptime_Ym m in replace d None None (Some 1)) with
        | Raise ValueError =>
            Raise (HTTPException 400 "Invalid month format. Use YYYY-MM")
        | r => r
        end
    end in
  let? end_ :=
    if month start =? 12
    then replace start (Some (year start + 1)) (Some 1) (Some 1)
    else replace start None (Some (month start + 1)) (Some 1) in
  Ok (start, end_).

(** ** Requests to the store *)

(** The query builder of the client: [.gte], [.lt] and [.eq]. *)
Inductive filter : Type :=
| F_gte (column value : string)
| F_lt (column value : string)
| F_eq (column value : string).

(** [sb.table(t).insert(data)] and [sb.table(t).select(columns)] with its
    filters and its [.order(column, desc=...)], when it has one. *)
Inductive table_request : Type :=
| Insert (table : string) (data : row)
| Select (table columns : string) (filters : list filter) (order : option (string * bool)).

(** [sb.rpc(fn, params)]. *)
Record rpc_request : Type := { fn : string; params : list (string * string) }.

Inductive request : Type :=
| OnTable (q : table_request)
| OnRpc (c : rpc_request).

(** The handle [create_client(SUPABASE_URL, SUPABASE_KEY)] returns. *)
Record client : Type := { supabase_url : string; supabase_key : string }.

(** A handler: it returns, raises, or sends one request with [.execute()] and
    goes on with the [data] of the response.  An exception raised by
    [.execute()] is caught nowhere, so it ends the handler (see [run]). *)
Inductive prog (A : Type) : Type :=
| Ret (a : A)
| Throw (e : exn)
| ExecTable (q : table_request) (k : option (list row) -> prog A)
| ExecRpc (c : rpc_request) (k : json -> prog A).

Arguments Ret {A} a.
Arguments Throw {A} e.
Arguments ExecTable {A} q k.
Arguments ExecRpc {A} c k.

Fixpoint pbind {A B : Type} (p : prog A) (f : A -> prog B) : prog B :=
  match p with
  | Ret a => f a
  | Throw e => Throw e
  | ExecTable q k => ExecTable q (fun d => pbind (k d) f)
  | ExecRpc c k => ExecRpc c (fun d => pbind (k d) f)
  end.

Notation "'let!' x ':=' p 'in' k" := (pbind p (fun x => k))
  (at level 10, x pattern, p at level 100, k at level 200).

Definition lift {A : Type} (r : result A) : prog A :=
  match r with
  | Ok a => Ret a
  | Raise e => Throw e
  end.

Definition execute_table (q : table_request) : prog (option (list row)) :=
  ExecTable q Ret.

Definition execute_rpc (c : rpc_request) : prog json := ExecRpc c Ret.

(** A store: a state and what [.execute()] does to it, for each kind of
    request; the answer is the [data] of the response or an exception. *)
Record backend (S : Type) : Type := {
  exec_table : table_request -> S -> result (option (list row)) * S;
  exec_rpc : rpc_request -> S -> result json * S
}.

Arguments exec_table {S} b q s.
Arguments exec_rpc {S} b c s.

(** One request handled against a store: the outcome, the store afterwards,
    and the requests sent, in order. *)
Fixpoint run {S A : Type} (b : backend S) (p : prog A) (s : S)
  : result A * S * list request :=
  match p with
  | Ret a => (Ok a, s, [])
  | Throw e => (Raise e, s, [])
  | ExecTable q k =>
      match exec_table b q s with
      | (Raise e, s1) => (Raise e, s1, [OnTable q])
      | (Ok d, s1) =>
          let '(out, s2, sent) := run b (k d) s1 in (out, s2, OnTable q :: sent)
      end
  | ExecRpc c k =>
      match exec_rpc b c s with
      | (Raise e, s1) => (Raise e, s1, [OnRpc c])
      | (Ok d, s1) =>
          let '(out, s2, sent) := run b (k d) s1 in (out, s2, OnRpc c :: sent)
      end
  end.

Definition outcome {S A : Type} (r : result A * S * list request) : result A :=
  fst (fst r).

Definition sent {S A : Type} (r : result A * S * list request) : list request :=
  snd r.

(** ** The store client (lines 10-19) *)

(** The four environment variables that are read, each unset or a text. *)
Record environ : Type := {
  env_SUPABASE_URL : option string;
  env_SUPABASE_SERVICE_ROLE_KEY : option string;
  env_SUPABASE_ANON_KEY : option string;
  env_SUPABASE_KEY : option string
}.

(** [a or b] on what [os.getenv] returns: [a] unless it is unset or empty. *)
Definition getenv_or (a b : option string) : option string :=
  match a with
  | Some (String _ _) => a
  | Some EmptyString | None => b
  end.

Definition SUPABASE_KEY (e : environ) : option string :=
  getenv_or (env_SUPABASE_SERVICE_ROLE_KEY e)
    (getenv_or (env_SUPABASE_ANON_KEY e) (env_SUPABASE_KEY e)).

(** The client is built when the URL and a key are set and not empty and
    [create_client] returns; any exception leaves it unset. *)
Definition supabase_client_of (e : environ)
  (create_client : string -> string -> result client) : option client :=
  match env_SUPABASE_URL e, SUPABASE_KEY e with
  | Some (String c u), Some (String d k) =>
      match create_client (String c u) (String d k) with
      | Ok sb => Some sb
      | Raise _ => None
      end
  | _, _ => None
  end.

(** ** Models (lines 33-62) *)

Record ReceiptIn : Type := {
  receipt_date : date;
  meal_type : string;
  receipt_amount : float;
  merchant : option string;
  receipt_note : option string;
  image_url : option string
}.

Record AdvanceIn : Type := {
  advance_date : date;
  advance_amount : float;
  advance_note : option string
}.

(** [Field(pattern=r"^(lunch|dinner)$")]: the whole string is one of the two
    words. *)
Definition meal_type_pattern (v : string) : bool :=
  String.eqb v "lunch" || String.eqb v "dinner".

(** The validator of lines 41-46. *)
Definition normalize_meal_type (v : string) : result string :=
  let v := lower v in
  if negb (String.eqb v "lunch" || String.eqb v "dinner")
  then Raise ValueError
  else Ok v.

(** Validation of the field [meal_type]: the constraint of the field is
    checked on the value received, and the validator, which is not declared
    [pre], is applied to a value that has passed it. *)
Definition validate_meal_type (v : string) : result string :=
  if meal_type_pattern v then
    match normalize_meal_type v with
    | Ok v' => Ok v'
    | Raise _ =>
        Raise (ValidationError "Value error, meal_type must be 'lunch' or 'dinner'")
    end
  else Raise (ValidationError "String should match pattern '^(lunch|dinner)$'").

(** [Field(gt=0)]. *)
Definition validate_amount (x : float) : result float :=
  if PrimFloat.ltb 0%float x then Ok x
  else Raise (ValidationError "Input should be greater than 0").

(** Construction of a [ReceiptIn] from a request body whose fields have the
    declared types.  A failure is answered with status 422 and the handler is
    not called. *)
Definition validate_ReceiptIn (body : ReceiptIn) : result ReceiptIn :=
  let? m := validate_meal_type (meal_type body) in
  let? x := validate_amount (receipt_amount body) in
  Ok {| receipt_date := receipt_date body; meal_type := m; receipt_amount := x;
        merchant := merchant body; receipt_note := receipt_note body;
        image_url := image_url body |}.

Definition validate_AdvanceIn (body : AdvanceIn) : result AdvanceIn :=
  let? x := validate_amount (advance_amount body) in
  Ok {| advance_date := advance_date body; advance_amount := x;
        advance_note := advance_note body |}.

(** ** Helpers (lines 67-88) *)

Definition require_supabase (supabase_client : option client) : result client :=
  match supabase_client with
  | None =>
      Raise (HTTPException 500
        "Supabase not configured. Set SUPABASE_URL and SUPABASE_KEY environment variables.")
  | Some sb => Ok sb
  end.

(** ** Routes *)

Definition optional_str (o : option string) : scalar :=
  match o with
  | Some s => SStr s
  | None => SNone
  end.

(** [payload.model_dump()] with the date replaced by its ISO text
    (lines 110-112). *)
Definition receipt_data (payload : ReceiptIn) : row :=
  <["date" := SStr (isoformat (receipt_date payload))]>
    (<["meal_type" := SStr (meal_type payload)]>
      (<["amount" := SFloat (receipt_amount payload)]>
        (<["merchant" := optional_str (merchant payload)]>
          (<["note" := optional_str (receipt_note payload)]>
            (<["image_url" := optional_str (image_url payload)]> ∅))))).

Definition advance_data (payload : AdvanceIn) : row :=
  <["date" := SStr (isoformat (advance_date payload))]>
    (<["amount" := SFloat (advance_amount payload)]>
      (<["note" := optional_str (advance_note payload)]> ∅)).

(** The inserted row, or the failure of lines 114-115. *)
Definition first_inserted (what : string) (data : option (list row)) : result row :=
  match data with
  | Some (r :: _) => Ok r
  | Some [] | None => Raise (HTTPException 500 ("Failed to insert " ++ what))
  end.

(** Lines 107-116. *)
Definition create_receipt (supabase_client : option client) (payload : ReceiptIn)
  : prog row :=
  let! sb := lift (require_supabase supabase_client) in
  let data := receipt_data payload in
  let! result := execute_table (Insert "receipts" data) in
  lift (first_inserted "receipt" result).

(** Lines 134-142. *)
Definition create_advance (supabase_client : option client) (payload : AdvanceIn)
  : prog row :=
  let! sb := lift (require_supabase supabase_client) in
  let data := advance_data payload in
  let! result := execute_table (Insert "advances" data) in
  lift (first_inserted "advance" result).

(** [POST /api/receipt] and [POST /api/advance]: the body is validated, then
    the handler is called. *)
Definition post_receipt (supabase_client : option client) (body : ReceiptIn)
  : prog row :=
  let! payload := lift (validate_ReceiptIn body) in
  create_receipt supabase_client payload.

Definition post_advance (supabase_client : option client) (body : AdvanceIn)
  : prog row :=
  let! payload := lift (validate_AdvanceIn body) in
  create_advance supabase_client payload.

(** [.gte("date", start.isoformat()).lt("date", end.isoformat())]. *)
Definition in_month (start end_ : date) : list filter :=
  [F_gte "date" (isoformat start); F_lt "date" (isoformat end_)].

(** [x or []]. *)
Definition or_empty (data : option (list row)) : list row := default [] data.

(** The query of the two listings (lines 123-130 and 149-156). *)
Definition listing (table : string) (start end_ : date) : table_request :=
  Select table "*" (in_month start end_) (Some ("date", false)).

(** Lines 119-131. *)
Definition list_receipts (supabase_client : option client) (today : date)
  (month_ : option unicode) : prog (list row) :=
  let! sb := lift (require_supabase supabase_client) in
  let! (start, end_) := lift (parse_month today month_) in
  let! result := execute_table (listing "receipts" start end_) in
  Ret (or_empty result).

(** Lines 145-157. *)
Definition list_advances (supabase_client : option client) (today : date)
  (month_ : option unicode) : prog (list row) :=
  let! sb := lift (require_supabase supabase_client) in
  let! (start, end_) := lift (parse_month today month_) in
  let! result := execute_table (listing "advances" start end_) in
  Ret (or_empty result).

(** *** Monthly summary (lines 160-240) *)

Record summary : Type := {
  summary_month : string;
  receipts_total : float;
  advances_total : float;
  lunch_total : float;
  dinner_total : float;
  net : float
}.

Definition sum_amounts (table : string) (start end_ : date) : rpc_request :=
  {| fn := "sum_amounts";
     params := [("table_name", table);
                ("start_date", isoformat start);
                ("end_date", isoformat end_)] |}.

(** The query of the fallback (lines 191-197 and 203-209). *)
Definition amounts_of (table : string) (start end_ : date) : table_request :=
  Select table "amount" (in_month start end_) None.

(** The queries of the breakdown (lines 213-228). *)
Definition amounts_of_meal (meal : string) (start end_ : date) : table_request :=
  Select "receipts" "amount" (F_eq "meal_type" meal :: in_month start end_) None.

Fixpoint contains (needle s : string) : bool :=
  String.prefix needle s
  || match s with
     | EmptyString => false
     | String _ rest => contains needle rest
     end.

(** ["sum" in x]: a key of a dict, an item of a list, a part of a string;
    [TypeError] for anything else. *)
Definition sum_in (x : json) : result bool :=
  match x with
  | JDict d => Ok (bool_decide (is_Some (d !! "sum")))
  | JList xs =>
      Ok (existsb (fun y => match y with
                            | JScalar (SStr s) => String.eqb s "sum"
                            | _ => false
                            end) xs)
  | JScalar (SStr s) => Ok (contains "sum" s)
  | JScalar _ => Raise TypeError
  end.

(** [x["sum"]]. *)
Definition getitem_sum (x : json) : result json :=
  match x with
  | JDict d => match d !! "sum" with
               | Some v => Ok v
               | None => Raise KeyError
               end
  | _ => Raise TypeError
  end.

(** [v or 0]. *)
Definition or_zero (v : json) : json :=
  if json_truthy v then v else JScalar (SInt 0).

(** [x["amount"]] on a row. *)
Definition getitem_amount (x : row) : result scalar :=
  match x !! "amount" with
  | Some v => Ok v
  | None => Raise KeyError
  end.

(** The items of [float(x["amount"]) for x in rows], in order. *)
Fixpoint amounts (rt : runtime) (rows : list row) : result (list float) :=
  match rows with
  | [] => Ok []
  | x :: rest =>
      let? v := getitem_amount x in
      let? f := float_of_scalar rt v in
      let? fs := amounts rt rest in
      Ok (f :: fs)
  end.

(** [sum(...)] of these items; the sum of no item is the integer 0, which is
    kept as the float of the same value. *)
Definition py_sum (rt : runtime) (xs : list float) : float :=
  match xs with
  | [] => 0%float
  | _ :: _ => float_sum rt xs
  end.

Definition sum_of_amounts (rt : runtime) (rows : list row) : result float :=
  let? xs := amounts rt rows in Ok (py_sum rt xs).

(** The test of lines 188 and 200: [data] is a non-empty list whose first
    item holds ["sum"]. *)
Definition usable (data : json) : result bool :=
  match data with
  | JList (first :: _) => sum_in first
  | _ => Ok false
  end.

(** [float(data[0]["sum"] or 0)]. *)
Definition rpc_sum (rt : runtime) (data : json) : result float :=
  match data with
  | JList (first :: _) => let? v := getitem_sum first in py_float rt (or_zero v)
  | _ => Raise TypeError
  end.

(** Lines 188-198 for [receipts] and 200-210 for [advances]: the same block,
    written twice in the source. *)
Definition total_of (rt : runtime) (table : string) (data : json) (start end_ : date)
  : prog float :=
  let! ok := lift (usable data) in
  if ok : bool then lift (rpc_sum rt data)
  else
    let! r2 := execute_table (amounts_of table start end_) in
    lift (sum_of_amounts rt (or_empty r2)).

Definition monthly_summary (rt : runtime) (supabase_client : option client)
  (today : date) (month_ : option unicode) : prog summary :=
  let! sb := lift (require_supabase supabase_client) in
  let! (start, end_) := lift (parse_month today month_) in
  let! r := execute_rpc (sum_amounts "receipts" start end_) in
  let! a := execute_rpc (sum_amounts "advances" start end_) in
  let! receipts_sum := total_of rt "receipts" r start end_ in
  let! advances_sum := total_of rt "advances" a start end_ in
  let! r_lunch := execute_table (amounts_of_meal "lunch" start end_) in
  let! r_dinner := execute_table (amounts_of_meal "dinner" start end_) in
  let! lunch := lift (sum_of_amounts rt (or_empty r_lunch)) in
  let! dinner := lift (sum_of_amounts rt (or_empty r_dinner)) in
  Ret {| summary_month := strftime_Ym rt start;
         receipts_total := py_round2 receipts_sum;
         advances_total := py_round2 advances_sum;
         lunch_total := py_round2 lunch;
         dinner_total := py_round2 dinner;
         net := py_round2 (receipts_sum - advances_sum)%float |}.

(** *** CSV export (lines 243-278) *)

Record Response : Type := { content : string; media_type : string }.

Definition LF : string := String "010"%char EmptyString.

(** [row.get(key, '')]. *)
Definition get (r : row) (key : string) : scalar := default (SStr "") (r !! key).

Definition header : string := "type,date,meal,amount,merchant,note".

(** Line 270. *)
Definition receipt_line (rt : runtime) (r : row) : string :=
  "receipt," ++ py_str rt (get r "date") ++ "," ++ py_str rt (get r "meal_type")
  ++ "," ++ py_str rt (get r "amount") ++ "," ++ py_str rt (get r "merchant")
  ++ "," ++ py_str rt (get r "note").

(** Line 274. *)
Definition advance_line (rt : runtime) (r : row) : string :=
  "advance," ++ py_str rt (get r "date") ++ ",," ++ py_str rt (get r "amount")
  ++ ",," ++ py_str rt (get r "note").

(** Lines 267-275. *)
Definition csv_lines (rt : runtime) (r a : list row) : list string :=
  (header :: map (receipt_line rt) r) ++ map (advance_line rt) a.

(** Line 277. *)
Definition csv_text (lines : list string) : string :=
  String.concat LF lines ++ LF.

(** The queries of lines 248-264. *)
Definition export_of (table columns : string) (start end_ : date) : table_request :=
  Select table columns (in_month start end_) (Some ("date", false)).

Definition export_csv (rt : runtime) (supabase_client : option client)
  (today : date) (month_ : option unicode) : prog Response :=
  let! sb := lift (require_supabase supabase_client) in
  let! (start, end_) := lift (parse_month today month_) in
  let! r := execute_table
              (export_of "receipts" "date,meal_type,amount,merchant,note" start end_) in
  let! a := execute_table (export_of "advances" "date,amount,note" start end_) in
  Ret {| content := csv_text (csv_lines rt (or_empty r) (or_empty a));
         media_type := "text/csv" |}.

(** ** The formats and dates the specification names *)

(** The format [YYYY-MM] read to the letter: four of the digits 0 to 9, a
    hyphen and two of these digits. *)
Definition matches_YYYY_MM (s : unicode) : bool :=
  match s with
  | [a; b; c; d; h; m1; m2] =>
      forallb (in_range 0 9) [a; b; c; d] && (h =? ord "-")%N
      && in_range 0 9 m1 && in_range 0 9 m2
  | _ => false
  end.

(** The month numbers [strptime] reads: 1 to 12, on one or two digits. *)
Definition month_words : list string :=
  ["1"; "2"; "3"; "4"; "5"; "6"; "7"; "8"; "9";
   "01"; "02"; "03"; "04"; "05"; "06"; "07"; "08"; "09"; "10"; "11"; "12"].

Definition is_word (t : unicode) (w : string) : bool := bool_decide (t = unicode_of w).

(** A year on four decimal digits, of any script, that are not four zeros, a
    hyphen, and a month number. *)
Definition names_a_month (s : unicode) : bool :=
  match s with
  | a :: b :: c :: d :: h :: m =>
      forallb is_digit [a; b; c; d]
      && negb (forallb (fun x => digit_val x =? 0) [a; b; c; d])
      && (h =? ord "-")%N && existsb (is_word m) month_words
  | _ => false
  end.

(** The first day of the month that follows month [m] of year [y]. *)
Definition first_of_next_month (y m : Z) : date :=
  if m =? 12 then mkdate (y + 1) 1 1 else mkdate y (m + 1) 1.

(** [d.toordinal()]: the number of the day, 0001-01-01 being day 1. *)
Definition days_before_year (y : Z) : Z :=
  let p := y - 1 in p * 365 + p / 4 - p / 100 + p / 400.

Definition days_before_month (y m : Z) : Z :=
  match m with
  | 2 => 31 | 3 => 59 | 4 => 90 | 5 => 120 | 6 => 151 | 7 => 181
  | 8 => 212 | 9 => 243 | 10 => 273 | 11 => 304 | 12 => 334
  | _ => 0
  end + (if (2 <? m) && is_leap y then 1 else 0).

Definition toordinal (d : date) : Z :=
  days_before_year (year d) + days_before_month (year d) (month d) + day d.

(** What lines 186-210 take as the sum of a table, the store going from [s]
    to [s']: when the result of the routine passes the test of line 188 (or
    200), [float(data[0]["sum"] or 0)], the store not being asked; when it
    does not, the sum of the amounts of the rows that the fallback query of
    that table returns. *)
Definition computed_sum {S : Type} (b : backend S) (rt : runtime) (table : string)
  (data : json) (start end_ : date) (s : S) (x : float) (s' : S) : Prop :=
  (usable data = Ok true /\ rpc_sum rt data = Ok x /\ s' = s)
  \/ (usable data = Ok false
      /\ exists rows xs,
           exec_table b (amounts_of table start end_) s = (Ok rows, s')
           /\ amounts rt (or_empty rows) = Ok xs
           /\ x = py_sum rt xs).

(** [data] is a list whose first row holds the key [sum] with a null
    value. *)
Definition has_null_sum (data : json) : Prop :=
  exists d rest, data = JList (JDict d :: rest) /\ d !! "sum" = Some (JScalar SNone).

(** ** A store kept in memory, for the examples *)

Record tables : Type := { stored_receipts : list row; stored_advances : list row }.

Definition rows_of (table : string) (s : tables) : list row :=
  if String.eqb table "receipts" then stored_receipts s
  else if String.eqb table "advances" then stored_advances s
  else [].

Definition text_of (r : row) (column : string) : string :=
  match r !! column with
  | Some (SStr v) => v
  | _ => EmptyString
  end.

(** ISO dates of four-digit years compare as texts. *)
Definition keeps (r : row) (f : filter) : bool :=
  match f with
  | F_gte column v => String.leb v (text_of r column)
  | F_lt column v => String.ltb (text_of r column) v
  | F_eq column v => String.eqb (text_of r column) v
  end.

Definition add_row (table : string) (data : row) (s : tables) : tables :=
  if String.eqb table "receipts"
  then {| stored_receipts := stored_receipts s ++ [data];
          stored_advances := stored_advances s |}
  else if String.eqb table "advances"
  then {| stored_receipts := stored_receipts s;
          stored_advances := stored_advances s ++ [data] |}
  else s.

(** Rows are kept in the order of insertion; [rpc] is what the store answers
    to [sum_amounts]. *)
Definition memory_store (rpc : rpc_request -> result json) : backend tables :=
  {| exec_table := fun q s =>
       match q with
       | Insert table data => (Ok (Some [data]), add_row table data s)
       | Select table _ filters _ =>
           (Ok (Some (List.filter (fun r => forallb (keeps r) filters) (rows_of table s))), s)
       end;
     exec_rpc := fun c s => (rpc c, s) |}.

(** The routine is not installed: [.execute()] raises. *)
Definition rpc_missing (c : rpc_request) : result json :=
  Raise (StoreError "Could not find the function public.sum_amounts").

(** The routine answers with the same [data] for both tables. *)
Definition rpc_answers (data : json) (c : rpc_request) : result json := Ok data.

(** The routine answers [[{"sum": r}]] for receipts and [[{"sum": a}]] for
    advances. *)
Definition rpc_sums (r a : scalar) (c : rpc_request) : result json :=
  match params c with
  | (_, table) :: _ =>
      Ok (JList [JDict {[ "sum" := JScalar (if String.eqb table "receipts" then r else a) ]}])
  | [] => Raise (StoreError "table_name is missing")
  end.

(** The routine answers [[{"sum": r}]] for receipts and a null result for
    advances. *)
Definition rpc_for_receipts (r : scalar) (c : rpc_request) : result json :=
  match params c with
  | (_, table) :: _ =>
      if String.eqb table "receipts" then Ok (JList [JDict {[ "sum" := JScalar r ]}])
      else Ok (JScalar SNone)
  | [] => Raise (StoreError "table_name is missing")
  end.

Definition sample_client : client :=
  {| supabase_url := "https://example.supabase.co"; supabase_key := "service-role-key" |}.

Definition sample_today : date := mkdate 2024 3 20.

(** A runtime for the examples: floats are added from left to right.  The
    examples hold no number written as a string and print no float, and their
    years have four digits, so the three other entries make no difference. *)
Definition sample_runtime : runtime :=
  {| float_of_str := fun _ => None;
     float_sum := fun xs => fold_left PrimFloat.add xs 0%float;
     float_repr := fun _ => EmptyString;
     year_padded := false |}.

Definition receipt_row (d meal : string) (x : scalar) (m n : scalar) : row :=
  <["date" := SStr d]> (<["meal_type" := SStr meal]> (<["amount" := x]>
    (<["merchant" := m]> (<["note" := n]> ∅)))).

Definition advance_row (d : string) (x : scalar) (n : scalar) : row :=
  <["date" := SStr d]> (<["amount" := x]> (<["note" := n]> ∅)).

Definition march : tables :=
  {| stored_receipts :=
       [receipt_row "2024-02-28" "dinner" (SInt 30) (SStr "Bistro") SNone;
        receipt_row "2024-03-05" "lunch" (SInt 12) SNone SNone;
        receipt_row "2024-03-09" "dinner" (SInt 20) (SStr "Diner") (SStr "team")];
     stored_advances := [advance_row "2024-03-01" (SInt 25) SNone] |}.

(** One receipt whose note is written on two lines. *)
Definition two_line_note : tables :=
  {| stored_receipts :=
       [receipt_row "2024-03-05" "lunch" (SInt 12) (SStr "Bistro")
          (SStr ("paid" ++ LF ++ "cash"))];
     stored_advances := [] |}.

(** The text ２０２４-03: the year in full-width digits (U+FF10 to U+FF19). *)
Definition fullwidth_2024_03 : unicode := [65298; 65296; 65298; 65300; 45; 48; 51]%N.

Definition lunch_body : ReceiptIn :=
  {| receipt_date := mkdate 2024 3 5; meal_type := "LUNCH";
     receipt_amount := 12.5%float; merchant := None; receipt_note := None;
     image_url := None |}.

(** ** The status route (lines 97-104) *)

Record status_report : Type := {
  report_backend : string;
  report_supabase_url : string;
  report_supabase_key : string;
  report_connected : string
}.

(** Truth value of what [os.getenv] returns. *)
Definition is_set (v : option string) : bool :=
  match v with
  | Some (String _ _) => true
  | Some EmptyString | None => false
  end.

(** [test()]; it reads the three globals of lines 10-19.  The two marks are
    outside Latin-1 and are written here as their UTF-8 bytes. *)
Definition test (e : environ) (supabase_client : option client) : status_report :=
  {| report_backend := "✅ Running";
     report_supabase_url := if is_set (env_SUPABASE_URL e) then "✅ Set" else "❌ Not Set";
     report_supabase_key := if is_set (SUPABASE_KEY e) then "✅ Set" else "❌ Not Set";
     report_connected := match supabase_client with Some _ => "✅" | None => "❌" end |}.

(** ** Measures used to state properties *)

(** The requests of a summary, in the order of the source. *)
Definition summary_plan (start end_ : date) : list request :=
  [OnRpc (sum_amounts "receipts" start end_);
   OnRpc (sum_amounts "advances" start end_);
   OnTable (amounts_of "receipts" start end_);
   OnTable (amounts_of "advances" start end_);
   OnTable (amounts_of_meal "lunch" start end_);
   OnTable (amounts_of_meal "dinner" start end_)].

(** A request that reads: a select or a call of the routine. *)
Definition reads (q : request) : bool :=
  match q with
  | OnTable (Insert _ _) => false
  | OnTable (Select _ _ _ _) | OnRpc _ => true
  end.

(** Occurrences of a character in a text. *)
Fixpoint count_char (c : ascii) (s : string) : nat :=
  match s with
  | EmptyString => 0
  | String x rest => (if Ascii.eqb x c then 1 else 0) + count_char c rest
  end.

Definition total (ns : list nat) : nat := fold_right Nat.add 0%nat ns.

(** [s.split(c)] for a separator [c] of one character: the pieces of [s]
    between the occurrences of [c]. *)
Fixpoint split_text (c : ascii) (s : string) : list string :=
  match s with
  | EmptyString => [EmptyString]
  | String x rest =>
      if Ascii.eqb x c then EmptyString :: split_text c rest
      else match split_text c rest with
           | piece :: pieces => String x piece :: pieces
           | [] => [String x EmptyString]
           end
  end.

(** A date of the calendar. *)
Definition valid_date (d : date) : Prop := date_new (year d) (month d) (day d) = Ok d.

(** * Properties *)

(** ** Running a handler *)

Lemma run_pbind {S A B : Type} (b : backend S) (p : prog A) (f : A -> prog B) (s : S) :
  run b (pbind p f) s =
  match run b p s with
  | (Ok a, s1, sent1) =>
      let '(out, s2, sent2) := run b (f a) s1 in (out, s2, (sent1 ++ sent2)%list)
  | (Raise e, s1, sent1) => (Raise e, s1, sent1)
  end.
Proof.
  revert s. induction p as [a | e | q k IH | c k IH]; intros s; simpl.
  - destruct (run b (f a) s) as [[out s2] sent2]. reflexivity.
  - reflexivity.
  - destruct (exec_table b q s) as [[d | e] s1]; [ | reflexivity ].
    rewrite IH. destruct (run b (k d) s1) as [[[a | e] s2] sent1]; [ | reflexivity ].
    destruct (run b (f a) s2) as [[out s3] sent2]. reflexivity.
  - destruct (exec_rpc b c s) as [[d | e] s1]; [ | reflexivity ].
    rewrite IH. destruct (run b (k d) s1) as [[[a | e] s2] sent1]; [ | reflexivity ].
    destruct (run b (f a) s2) as [[out s3] sent2]. reflexivity.
Qed.

Lemma run_lift {S A : Type} (b : backend S) (r : result A) (s : S) :
  run b (lift r) s = (r, s, []).
Proof. destruct r; reflexivity. Qed.

(** ** Dates *)

Lemma date_new_Ok (y m d : Z) (x : date) :
  date_new y m d = Ok x ->
  x = mkdate y m d /\ MINYEAR <= y <= MAXYEAR /\ 1 <= m <= 12 /\ 1 <= d <= days_in_month y m.
Proof.
  unfold date_new. intros H.
  destruct ((MINYEAR <=? y) && (y <=? MAXYEAR) && (1 <=? m) && (m <=? 12)
            && (1 <=? d) && (d <=? days_in_month y m)) eqn:E; [ | discriminate ].
  injection H as <-. unfold MINYEAR, MAXYEAR.
  repeat (apply andb_prop in E; destruct E as [E ?]).
  repeat match goal with
         | H : (_ <=? _) = true |- _ => apply Z.leb_le in H
         end.
  repeat split; assumption.
Qed.

Lemma days_in_month_pos (y m : Z) : 1 <= m <= 12 -> 28 <= days_in_month y m.
Proof.
  intros H.
  assert (m = 1 \/ m = 2 \/ m = 3 \/ m = 4 \/ m = 5 \/ m = 6 \/ m = 7 \/ m = 8
          \/ m = 9 \/ m = 10 \/ m = 11 \/ m = 12) as C by lia.
  unfold days_in_month.
  repeat (destruct C as [-> | C]); try subst m; try lia; destruct (is_leap y); lia.
Qed.

Lemma date_new_first (y m : Z) :
  MINYEAR <= y <= MAXYEAR -> 1 <= m <= 12 -> date_new y m 1 = Ok (mkdate y m 1).
Proof.
  intros Hy Hm. unfold date_new.
  pose proof (days_in_month_pos y m Hm).
  replace ((MINYEAR <=? y) && (y <=? MAXYEAR) && (1 <=? m) && (m <=? 12)
           && (1 <=? 1) && (1 <=? days_in_month y m)) with true; [ reflexivity | ].
  unfold MINYEAR, MAXYEAR in *.
  symmetry. repeat (apply andb_true_intro; split); apply Z.leb_le; lia.
Qed.

Lemma replace_day (d : date) :
  replace d None None (Some 1) = date_new (year d) (month d) 1.
Proof. reflexivity. Qed.

Lemma replace_next_year (d : date) :
  replace d (Some (year d + 1)) (Some 1) (Some 1) = date_new (year d + 1) 1 1.
Proof. reflexivity. Qed.

Lemma replace_next_month (d : date) :
  replace d None (Some (month d + 1)) (Some 1) = date_new (year d) (month d + 1) 1.
Proof. reflexivity. Qed.

(** The start that [parse_month] computes is the first day of a month. *)
Lemma parse_month_start (today : date) (month_ : option unicode) (start end_ : date) :
  parse_month today month_ = Ok (start, end_) ->
  day start = 1 /\ MINYEAR <= year start <= MAXYEAR /\ 1 <= month start <= 12
  /\ (if month start =? 12
      then replace start (Some (year start + 1)) (Some 1) (Some 1)
      else replace start None (Some (month start + 1)) (Some 1)) = Ok end_.
Proof.
  unfold parse_month. intros H.
  match type of H with
  | bind ?first _ = _ => destruct first as [st | e] eqn:E; [ | discriminate ]
  end.
  simpl in H.
  assert (exists y m, date_new y m 1 = Ok st) as (y & m & Hst).
  { destruct month_ as [[ | c rest] | ].
    - exists (year today), (month today). exact E.
    - destruct (strptime_Ym (c :: rest)) as [d | e] eqn:Ed; simpl in E.
      + exists (year d), (month d). unfold replace in E. simpl in E.
        destruct (date_new (year d) (month d) 1) as [d' | e]; [ congruence | ].
        destruct e; discriminate.
      + destruct e; discriminate.
    - exists (year today), (month today). exact E. }
  apply date_new_Ok in Hst as (-> & Hy & Hm & _). simpl in *.
  destruct (m =? 12) eqn:E12;
    match type of H with
    | bind ?second _ = _ => destruct second as [en | e] eqn:E2; [ | discriminate ]
    end; simpl in H; injection H as <- <-; simpl; rewrite E12; auto.
Qed.

Lemma days_before_next_year (y : Z) :
  days_before_year (y + 1) = days_before_year y + 365 + (if is_leap y then 1 else 0).
Proof.
  unfold days_before_year, is_leap.
  replace (y + 1 - 1) with y by lia.
  destruct (y mod 4 =? 0) eqn:E4; destruct (y mod 100 =? 0) eqn:E100;
    destruct (y mod 400 =? 0) eqn:E400; simpl;
    repeat match goal with
           | H : (_ =? _) = true |- _ => apply Z.eqb_eq in H
           | H : (_ =? _) = false |- _ => apply Z.eqb_neq in H
           end;
    Z.div_mod_to_equations; lia.
Qed.

Lemma days_before_month_step (y m : Z) :
  1 <= m <= 11 -> days_before_month y (m + 1) = days_before_month y m + days_in_month y m.
Proof.
  intros H.
  assert (m = 1 \/ m = 2 \/ m = 3 \/ m = 4 \/ m = 5 \/ m = 6 \/ m = 7 \/ m = 8
          \/ m = 9 \/ m = 10 \/ m = 11) as C by lia.
  repeat (destruct C as [-> | C]); try subst m;
    unfold days_before_month, days_in_month; destruct (is_leap y); reflexivity.
Qed.

Lemma days_before_january (y : Z) :
  days_before_month y 1 = 0
  /\ days_before_month y 12 + days_in_month y 12 = 365 + (if is_leap y then 1 else 0).
Proof.
  unfold days_before_month, days_in_month. destruct (is_leap y); split; reflexivity.
Qed.

(** The day [first_of_next_month] names comes right after the last day of the
    month, whatever its length. *)
Lemma first_of_next_month_follows (y m : Z) :
  1 <= m <= 12 ->
  toordinal (first_of_next_month y m) = toordinal (mkdate y m 1) + days_in_month y m.
Proof.
  intros H. unfold first_of_next_month, toordinal.
  destruct (m =? 12) eqn:E; cbn [year month day].
  - apply Z.eqb_eq in E. subst m. rewrite days_before_next_year.
    destruct (days_before_january (y + 1)) as [-> _].
    destruct (days_before_january y) as [_ D]. lia.
  - apply Z.eqb_neq in E. rewrite days_before_month_step by lia. lia.
Qed.

Lemma digit_spec (n : Z) :
  is_digit (ord (digit n)) = true /\ digit_val (ord (digit n)) = n mod 10.
Proof.
  unfold digit. pose proof (Z.mod_pos_bound n 10 eq_refl) as Hz.
  generalize dependent (n mod 10). intros z Hz.
  assert (z = 0 \/ z = 1 \/ z = 2 \/ z = 3 \/ z = 4 \/ z = 5 \/ z = 6 \/ z = 7
          \/ z = 8 \/ z = 9) as C by lia.
  repeat (destruct C as [-> | C]); try subst z; split; reflexivity.
Qed.

Lemma year_digits (y : Z) :
  0 <= y <= 9999 ->
  1000 * ((y / 1000) mod 10) + 100 * ((y / 100) mod 10) + 10 * ((y / 10) mod 10)
  + y mod 10 = y.
Proof. intros H. Z.div_mod_to_equations. lia. Qed.

Lemma unicode_of_cons (c : ascii) (s : string) :
  unicode_of (String c s) = ord c :: unicode_of s.
Proof. reflexivity. Qed.

Lemma unicode_of_append (a b : string) :
  unicode_of (a ++ b) = (unicode_of a ++ unicode_of b)%list.
Proof.
  induction a as [ | x a IH]; [ reflexivity | ].
  change (unicode_of (String x (a ++ b)) = (unicode_of (String x a) ++ unicode_of b)%list).
  rewrite !unicode_of_cons, IH. reflexivity.
Qed.

Lemma match_month_two_digits (m : Z) :
  1 <= m <= 12 ->
  match_month [ord (digit (m / 10)); ord (digit m)] = Some (m, []).
Proof.
  intros H.
  assert (m = 1 \/ m = 2 \/ m = 3 \/ m = 4 \/ m = 5 \/ m = 6 \/ m = 7 \/ m = 8
          \/ m = 9 \/ m = 10 \/ m = 11 \/ m = 12) as C by lia.
  repeat (destruct C as [-> | C]); try subst m; reflexivity.
Qed.

(** A year and a month written [YYYY-MM] are read back as they were written. *)
Lemma strptime_Ym_canonical (y m : Z) :
  MINYEAR <= y <= MAXYEAR -> 1 <= m <= 12 ->
  strptime_Ym (unicode_of (zfill4 y ++ "-" ++ zfill2 m)) = Ok (mkdate y m 1).
Proof.
  intros Hy Hm. unfold zfill4, zfill2. cbv beta iota fix delta [String.append].
  rewrite !unicode_of_cons. change (unicode_of "") with (@nil N).
  unfold strptime_Ym.
  destruct (digit_spec (y / 1000)) as [-> ->].
  destruct (digit_spec (y / 100)) as [-> ->].
  destruct (digit_spec (y / 10)) as [-> ->].
  destruct (digit_spec y) as [-> ->].
  change (ord "-" =? ord "-")%N with true.
  cbn [andb]. rewrite (match_month_two_digits m Hm).
  unfold MINYEAR, MAXYEAR in Hy.
  rewrite year_digits by lia. apply date_new_first; assumption.
Qed.

(** A year of four digits is written with these digits by every C library. *)
Lemma year_text (y : Z) :
  1000 <= y <= 9999 -> NilZero.string_of_int (Z.to_int y) = zfill4 y.
Proof.
  intros H.
  assert (forallb (fun q => forallb (fun r =>
              String.eqb (NilZero.string_of_int (Z.to_int (100 * Z.of_nat q + Z.of_nat r)))
                         (zfill4 (100 * Z.of_nat q + Z.of_nat r)))
            (seq 0 100)) (seq 10 90) = true) as C by (vm_compute; reflexivity).
  rewrite forallb_forall in C.
  assert (In (Z.to_nat (y / 100)) (seq 10 90)) as Hq
    by (apply in_seq; Z.div_mod_to_equations; lia).
  specialize (C _ Hq). rewrite forallb_forall in C.
  assert (In (Z.to_nat (y mod 100)) (seq 0 100)) as Hr
    by (apply in_seq; Z.div_mod_to_equations; lia).
  specialize (C _ Hr). apply String.eqb_eq in C.
  rewrite !Z2Nat.id in C by (Z.div_mod_to_equations; lia).
  replace (100 * (y / 100) + y mod 100) with y in C by (Z.div_mod_to_equations; lia).
  exact C.
Qed.

Lemma strftime_Ym_four_digits (rt : runtime) (d : date) :
  1000 <= year d <= 9999 -> strftime_Ym rt d = zfill4 (year d) ++ "-" ++ zfill2 (month d).
Proof.
  intros H. unfold strftime_Ym. destruct (year_padded rt); [ reflexivity | ].
  rewrite (year_text _ H). reflexivity.
Qed.

(** C10: whenever [parse_month] returns, with a month or without one, the two
    dates are first days of a month and the first is earlier than the second:
    [start.day == 1], [end.day == 1] and [start < end]. *)
Theorem parse_month_interval (today : date) (month_ : option unicode) (start end_ : date) :
  parse_month today month_ = Ok (start, end_) ->
  day start = 1 /\ day end_ = 1 /\ date_ltb start end_ = true.
Proof.
  intros H. apply parse_month_start in H as (Hd & Hy & Hm & Hend).
  destruct start as [y m d]. simpl in *. subst d. unfold replace in Hend. simpl in Hend.
  unfold date_ltb.
  destruct (m =? 12) eqn:E; apply date_new_Ok in Hend as (-> & _); simpl.
  - repeat split. apply orb_true_intro. left. apply Z.ltb_lt. lia.
  - repeat split. apply orb_true_intro. right.
    rewrite Z.eqb_refl. simpl. apply orb_true_intro. left. apply Z.ltb_lt. lia.
Qed.

Lemma parse_month_interval_holds :
  parse_month sample_today None = Ok (mkdate 2024 3 1, mkdate 2024 4 1)
  /\ day (mkdate 2024 3 1) = 1 /\ day (mkdate 2024 4 1) = 1
  /\ date_ltb (mkdate 2024 3 1) (mkdate 2024 4 1) = true.
Proof.
  split; [ reflexivity | ].
  exact (parse_month_interval sample_today None (mkdate 2024 3 1) (mkdate 2024 4 1) eq_refl).
Defined.

(** C6: a year from 1 to 9999 and a month from 1 to 12 written [YYYY-MM] are
    mapped to the first day of that month and the first day of the month that
    follows, December being followed by January of the next year; the last
    month of year 9999 has no following month.  ["2024-02"] and ["2024-12"]
    are two instances. *)
Theorem parse_month_range (today : date) (y m : Z) :
  MINYEAR <= y <= MAXYEAR -> 1 <= m <= 12 -> ~ (y = MAXYEAR /\ m = 12) ->
  parse_month today (Some (unicode_of (zfill4 y ++ "-" ++ zfill2 m)))
  = Ok (mkdate y m 1, first_of_next_month y m).
Proof.
  intros Hy Hm Hlast. unfold parse_month.
  pose proof (strptime_Ym_canonical y m Hy Hm) as E.
  destruct (unicode_of (zfill4 y ++ "-" ++ zfill2 m)) as [ | c rest] eqn:Etext;
    [ discriminate | ].
  rewrite E. cbn [bind]. rewrite replace_day. cbn [year month].
  rewrite (date_new_first y m Hy Hm). cbn [bind month year].
  unfold first_of_next_month. rewrite replace_next_year, replace_next_month.
  cbn [year month]. unfold MINYEAR, MAXYEAR in *.
  destruct (m =? 12) eqn:E12.
  - apply Z.eqb_eq in E12. rewrite date_new_first by (unfold MINYEAR, MAXYEAR; lia).
    reflexivity.
  - apply Z.eqb_neq in E12. rewrite date_new_first by (unfold MINYEAR, MAXYEAR; lia).
    reflexivity.
Qed.

Lemma parse_month_examples :
  (MINYEAR <= 2024 <= MAXYEAR /\ 1 <= 2 <= 12 /\ 1 <= 12 <= 12)
  /\ parse_month sample_today (Some (unicode_of "2024-02")) = Ok (mkdate 2024 2 1, mkdate 2024 3 1)
  /\ parse_month sample_today (Some (unicode_of "2024-12")) = Ok (mkdate 2024 12 1, mkdate 2025 1 1).
Proof.
  assert (MINYEAR <= 2024 <= MAXYEAR) as Hy by (unfold MINYEAR, MAXYEAR; lia).
  split; [ | split ].
  - split; [ exact Hy | lia ].
  - apply (parse_month_range sample_today 2024 2 Hy); [ lia | intros [_ ?]; lia ].
  - apply (parse_month_range sample_today 2024 12 Hy);
      [ lia | intros [? _]; unfold MAXYEAR in *; lia ].
Defined.

(** ** Month texts *)

Lemma decimal_bounds (c : N) (v : Z) : decimal c = Some v -> 0 <= v <= 9.
Proof.
  unfold decimal.
  destruct (List.find (fun z => (z <=? c) && (c <? z + 10))%N decimal_zeros) as [z | ] eqn:E;
    [ | discriminate ].
  intros H. injection H as <-. apply find_some in E as [_ E].
  apply andb_prop in E as [E1 E2]. apply N.leb_le in E1. apply N.ltb_lt in E2. lia.
Qed.

Lemma is_digit_inv (c : N) : is_digit c = true -> 0 <= digit_val c <= 9.
Proof.
  unfold is_digit, digit_val. destruct (decimal c) as [v | ] eqn:E; [ | discriminate ].
  intros _. exact (decimal_bounds c v E).
Qed.

Lemma digit_val_digit (k : Z) : 0 <= k <= 9 -> digit_val (ord (digit k)) = k.
Proof. intros H. destruct (digit_spec k) as [_ ->]. apply Z.mod_small. lia. Qed.

Lemma ord_digit (k : Z) : 0 <= k <= 9 -> ord (digit k) = Z.to_N (48 + k).
Proof.
  intros H.
  assert (k = 0 \/ k = 1 \/ k = 2 \/ k = 3 \/ k = 4 \/ k = 5 \/ k = 6 \/ k = 7
          \/ k = 8 \/ k = 9) as C by lia.
  repeat (destruct C as [-> | C]); try subst k; reflexivity.
Qed.

(** A character of a class of ASCII digits is one of the ten digits. *)
Lemma in_range_inv (lo hi : Z) (c : N) :
  0 <= lo -> hi <= 9 -> in_range lo hi c = true ->
  exists k, c = ord (digit k) /\ digit_val c = k /\ 0 <= k <= 9 /\ lo <= k <= hi.
Proof.
  unfold in_range. intros Hlo Hhi H.
  apply andb_prop in H as [H1 H2]. apply Z.leb_le in H1, H2.
  exists (Z.of_N c - 48).
  assert (ord (digit (Z.of_N c - 48)) = c) as E by (rewrite ord_digit by lia; lia).
  split; [ symmetry; exact E | ]. split; [ | lia ].
  rewrite <- E at 1. apply digit_val_digit. lia.
Qed.

Lemma is_word_spec (t : unicode) (w : string) : is_word t w = true <-> t = unicode_of w.
Proof. unfold is_word. apply bool_decide_eq_true. Qed.

Lemma one_digit_month (k : Z) :
  1 <= k <= 9 ->
  existsb (is_word [ord (digit k)]) month_words = true
  /\ existsb (is_word [ord "0"; ord (digit k)]) month_words = true.
Proof.
  intros H.
  assert (k = 1 \/ k = 2 \/ k = 3 \/ k = 4 \/ k = 5 \/ k = 6 \/ k = 7 \/ k = 8 \/ k = 9)
    as C by lia.
  repeat (destruct C as [-> | C]); try subst k; split; reflexivity.
Qed.

Lemma two_digit_month (k : Z) :
  0 <= k <= 2 ->
  existsb (is_word [ord "1"; ord (digit k)]) month_words = true.
Proof.
  intros H. assert (k = 0 \/ k = 1 \/ k = 2) as C by lia.
  repeat (destruct C as [-> | C]); try subst k; reflexivity.
Qed.

(** What [match_month] reads to the end is one of the month numbers. *)
Lemma match_month_sound (t : unicode) (m : Z) :
  match_month t = Some (m, []) ->
  existsb (is_word t) month_words = true /\ 1 <= m <= 12.
Proof.
  destruct t as [ | c [ | c2 rest]]; cbn [match_month]; [ discriminate | | ].
  - destruct (in_range 1 9 c) eqn:E; [ | discriminate ].
    intros H. injection H as <-.
    apply in_range_inv in E as (k & -> & -> & _ & E); [ | lia | lia ].
    split; [ apply one_digit_month | ]; lia.
  - destruct ((c =? ord "1")%N && in_range 0 2 c2) eqn:E1.
    { intros H. injection H as <- ->. apply andb_prop in E1 as [Ec E].
      apply N.eqb_eq in Ec. subst c.
      apply in_range_inv in E as (k & -> & -> & _ & E); [ | lia | lia ].
      split; [ apply two_digit_month | ]; lia. }
    destruct ((c =? ord "0")%N && in_range 1 9 c2) eqn:E2.
    { intros H. injection H as <- ->. apply andb_prop in E2 as [Ec E].
      apply N.eqb_eq in Ec. subst c.
      apply in_range_inv in E as (k & -> & -> & _ & E); [ | lia | lia ].
      split; [ apply one_digit_month | ]; lia. }
    destruct (in_range 1 9 c); discriminate.
Qed.

(** Every month number is read to the end. *)
Lemma match_month_complete (t : unicode) :
  existsb (is_word t) month_words = true ->
  exists m, match_month t = Some (m, []) /\ 1 <= m <= 12.
Proof.
  intros H. apply existsb_exists in H as (w & Hin & Hw).
  apply is_word_spec in Hw. subst t. unfold month_words in Hin. simpl in Hin.
  repeat (destruct Hin as [<- | Hin];
          [ eexists; split; [ reflexivity | vm_compute; split; discriminate ] | ]).
  contradiction.
Qed.

Lemma date_new_outcomes (y m d : Z) :
  date_new y m d = Ok (mkdate y m d) \/ date_new y m d = Raise ValueError.
Proof. unfold date_new. match goal with |- context [if ?c then _ else _] => destruct c end; auto. Qed.

(** [strptime] rejects, with [ValueError], every text that does not name a
    month. *)
Lemma strptime_Ym_rejects (s : unicode) :
  names_a_month s = false -> strptime_Ym s = Raise ValueError.
Proof.
  destruct s as [ | a [ | b [ | c [ | d [ | h t]]]]]; try reflexivity.
  unfold names_a_month, strptime_Ym. cbn [forallb].
  destruct (is_digit a), (is_digit b), (is_digit c), (is_digit d);
    cbn [andb negb]; try reflexivity.
  destruct (h =? ord "-")%N; [ | reflexivity ].
  destruct (match_month t) as [[m [ | ? ?]] | ] eqn:Em; try reflexivity.
  apply match_month_sound in Em as [-> Hm]. rewrite !andb_true_r.
  intros H. apply negb_false_iff in H.
  repeat (apply andb_prop in H; destruct H as [? H]).
  repeat match goal with
         | E : (_ =? 0) = true |- _ => apply Z.eqb_eq in E; rewrite E
         end.
  reflexivity.
Qed.

(** [strptime] reads every text that names a month. *)
Lemma strptime_Ym_accepts (s : unicode) :
  names_a_month s = true ->
  exists y m, strptime_Ym s = Ok (mkdate y m 1) /\ MINYEAR <= y <= MAXYEAR /\ 1 <= m <= 12.
Proof.
  destruct s as [ | a [ | b [ | c [ | d [ | h t]]]]]; try discriminate.
  unfold names_a_month, strptime_Ym. cbn [forallb].
  destruct (is_digit a) eqn:Da, (is_digit b) eqn:Db, (is_digit c) eqn:Dc,
    (is_digit d) eqn:Dd; cbn [andb negb]; try discriminate.
  destruct (h =? ord "-")%N; rewrite ?andb_false_r; [ | discriminate ].
  rewrite !andb_true_r. intros H. apply andb_prop in H as [Hz Hw].
  apply match_month_complete in Hw as (m & -> & Hm).
  apply is_digit_inv in Da, Db, Dc, Dd.
  set (y := 1000 * digit_val a + 100 * digit_val b + 10 * digit_val c + digit_val d).
  assert (y <> 0) as Hy.
  { intros E0.
    assert (digit_val a = 0 /\ digit_val b = 0 /\ digit_val c = 0 /\ digit_val d = 0)
      as (Za & Zb & Zc & Zd) by (unfold y in E0; lia).
    rewrite Za, Zb, Zc, Zd in Hz. discriminate Hz. }
  assert (MINYEAR <= y <= MAXYEAR) as Hrange by (unfold MINYEAR, MAXYEAR, y in *; lia).
  exists y, m. rewrite date_new_first by assumption. auto.
Qed.

(** [parse_month] on a text that [strptime] reads. *)
Lemma parse_month_of_strptime (today : date) (s : unicode) (y m : Z) :
  strptime_Ym s = Ok (mkdate y m 1) ->
  MINYEAR <= y <= MAXYEAR -> 1 <= m <= 12 ->
  parse_month today (Some s)
  = if (y =? MAXYEAR) && (m =? 12) then Raise ValueError
    else Ok (mkdate y m 1, first_of_next_month y m).
Proof.
  intros E Hy Hm. unfold parse_month.
  destruct s as [ | c rest]; [ discriminate | ].
  rewrite E. cbn [bind]. rewrite replace_day. cbn [year month].
  rewrite (date_new_first y m Hy Hm). cbn [bind month year].
  unfold first_of_next_month. rewrite replace_next_year, replace_next_month.
  cbn [year month]. unfold MINYEAR, MAXYEAR in *.
  destruct (Z.eqb_spec m 12) as [E12 | E12]; destruct (Z.eqb_spec y 9999) as [E9 | E9];
    cbn [andb].
  - subst y. reflexivity.
  - rewrite date_new_first by (unfold MINYEAR, MAXYEAR; lia). reflexivity.
  - rewrite date_new_first by (unfold MINYEAR, MAXYEAR; lia). reflexivity.
  - rewrite date_new_first by (unfold MINYEAR, MAXYEAR; lia). reflexivity.
Qed.

(** [parse_month] on a text that names no month. *)
Lemma parse_month_rejects (today : date) (s : unicode) :
  s <> [] -> names_a_month s = false ->
  parse_month today (Some s) = Raise (HTTPException 400 "Invalid month format. Use YYYY-MM").
Proof.
  intros Hs H. unfold parse_month. destruct s as [ | c rest]; [ congruence | ].
  rewrite (strptime_Ym_rejects _ H). reflexivity.
Qed.

(** ** The fields of a body *)

(** The validator alone accepts the two words in any case and returns them
    in lower case. *)
Lemma normalize_meal_type_Ok (v w : string) :
  normalize_meal_type v = Ok w -> w = lower v /\ (w = "lunch" \/ w = "dinner").
Proof.
  unfold normalize_meal_type. intros H.
  destruct (String.eqb (lower v) "lunch") eqn:E1; cbn [orb negb] in H.
  - injection H as <-. apply String.eqb_eq in E1. auto.
  - destruct (String.eqb (lower v) "dinner") eqn:E2; cbn [negb] in H; [ | discriminate ].
    injection H as <-. apply String.eqb_eq in E2. auto.
Qed.

(** The field as a whole accepts the two words in lower case only, and leaves
    them as they are. *)
Lemma validate_meal_type_Ok (v w : string) :
  validate_meal_type v = Ok w <-> w = v /\ (v = "lunch" \/ v = "dinner").
Proof.
  unfold validate_meal_type, meal_type_pattern. split.
  - destruct (String.eqb_spec v "lunch") as [-> | N1]; cbn [orb].
    + intros H. injection H as <-. auto.
    + destruct (String.eqb_spec v "dinner") as [-> | N2]; [ | discriminate ].
      intros H. injection H as <-. auto.
  - intros [-> [-> | ->]]; reflexivity.
Qed.

(** ** The store gate *)

(** A body is refused with a validation error only. *)
Lemma validate_ReceiptIn_outcomes (body : ReceiptIn) :
  ((meal_type body = "lunch" \/ meal_type body = "dinner")
   /\ PrimFloat.ltb 0%float (receipt_amount body) = true
   /\ validate_ReceiptIn body = Ok body)
  \/ (~ ((meal_type body = "lunch" \/ meal_type body = "dinner")
         /\ PrimFloat.ltb 0%float (receipt_amount body) = true)
      /\ exists detail, validate_ReceiptIn body = Raise (ValidationError detail)).
Proof.
  unfold validate_ReceiptIn, validate_amount.
  destruct (validate_meal_type (meal_type body)) as [w | e] eqn:E.
  - apply validate_meal_type_Ok in E as [-> E]. cbn [bind].
    destruct (PrimFloat.ltb 0%float (receipt_amount body)) eqn:A; cbn [bind].
    + left. split; [ exact E | ]. split; [ reflexivity | ]. destruct body; reflexivity.
    + right. split; [ intros [_ H]; discriminate H | eexists; reflexivity ].
  - right. split.
    + intros [H _].
      assert (validate_meal_type (meal_type body) = Ok (meal_type body)) as V
        by (apply validate_meal_type_Ok; auto).
      congruence.
    + unfold validate_meal_type in E.
      destruct (meal_type_pattern (meal_type body)).
      * destruct (normalize_meal_type (meal_type body)); [ discriminate | ].
        injection E as <-. eexists. reflexivity.
      * injection E as <-. eexists. reflexivity.
Qed.

Lemma validate_AdvanceIn_outcomes (body : AdvanceIn) :
  (PrimFloat.ltb 0%float (advance_amount body) = true /\ validate_AdvanceIn body = Ok body)
  \/ (PrimFloat.ltb 0%float (advance_amount body) = false
      /\ validate_AdvanceIn body = Raise (ValidationError "Input should be greater than 0")).
Proof.
  unfold validate_AdvanceIn, validate_amount.
  destruct (PrimFloat.ltb 0%float (advance_amount body)); cbn [bind].
  - left. split; [ reflexivity | ]. destruct body; reflexivity.
  - right. split; reflexivity.
Qed.

(** C8, as the code has it: with no store client, each of the four GET
    endpoints, and each of the two POST endpoints for a body that passes
    validation, answers with the status 500 and the text that names the two
    settings; a POST whose body fails validation is answered 422, the handler
    not being called.  In every case nothing is sent to the store and the
    store is left as it was. *)
Theorem unset_client_is_reported {S : Type} (b : backend S) (s : S) (rt : runtime)
  (today : date) (month_ : option unicode) (receipt : ReceiptIn) (advance : AdvanceIn) :
  let missing :=
    HTTPException 500
      "Supabase not configured. Set SUPABASE_URL and SUPABASE_KEY environment variables." in
  run b (list_receipts None today month_) s = (Raise missing, s, [])
  /\ run b (list_advances None today month_) s = (Raise missing, s, [])
  /\ run b (monthly_summary rt None today month_) s = (Raise missing, s, [])
  /\ run b (export_csv rt None today month_) s = (Raise missing, s, [])
  /\ run b (create_receipt None receipt) s = (Raise missing, s, [])
  /\ run b (create_advance None advance) s = (Raise missing, s, [])
  /\ ((meal_type receipt = "lunch" \/ meal_type receipt = "dinner")
      /\ PrimFloat.ltb 0%float (receipt_amount receipt) = true ->
      run b (post_receipt None receipt) s = (Raise missing, s, []))
  /\ (~ ((meal_type receipt = "lunch" \/ meal_type receipt = "dinner")
         /\ PrimFloat.ltb 0%float (receipt_amount receipt) = true) ->
      exists detail,
        run b (post_receipt None receipt) s = (Raise (ValidationError detail), s, []))
  /\ (PrimFloat.ltb 0%float (advance_amount advance) = true ->
      run b (post_advance None advance) s = (Raise missing, s, []))
  /\ (PrimFloat.ltb 0%float (advance_amount advance) = false ->
      run b (post_advance None advance) s
      = (Raise (ValidationError "Input should be greater than 0"), s, []))
  /\ is_server_error (Raise missing : result unit) = true
  /\ (forall detail, status_of (Raise (ValidationError detail) : result unit) = 422).
Proof.
  intros missing. repeat (split; [ reflexivity | ]).
  split; [ | split; [ | split; [ | split; [ | split; reflexivity ] ] ] ].
  - intros H. unfold post_receipt.
    destruct (validate_ReceiptIn_outcomes receipt) as [(_ & _ & ->) | [N _]];
      [ reflexivity | contradiction ].
  - intros N. unfold post_receipt.
    destruct (validate_ReceiptIn_outcomes receipt) as [(H1 & H2 & _) | [_ [detail ->]]].
    + exfalso. apply N. split; assumption.
    + exists detail. reflexivity.
  - intros H. unfold post_advance.
    destruct (validate_AdvanceIn_outcomes advance) as [[_ ->] | [N _]];
      [ reflexivity | congruence ].
  - intros H. unfold post_advance.
    destruct (validate_AdvanceIn_outcomes advance) as [[N _] | [_ ->]];
      [ congruence | reflexivity ].
Qed.

(** A receipt that passes validation and an advance of zero, with no client. *)
Lemma unset_client_examples :
  run (memory_store rpc_missing)
    (post_receipt None
       {| receipt_date := mkdate 2024 3 5; meal_type := "lunch";
          receipt_amount := 12.5%float; merchant := None; receipt_note := None;
          image_url := None |}) march
  = (Raise (HTTPException 500
       "Supabase not configured. Set SUPABASE_URL and SUPABASE_KEY environment variables."),
     march, [])
  /\ run (memory_store rpc_missing)
       (post_advance None
          {| advance_date := mkdate 2024 3 1; advance_amount := 0%float;
             advance_note := None |}) march
     = (Raise (ValidationError "Input should be greater than 0"), march, []).
Proof.
  destruct (unset_client_is_reported (memory_store rpc_missing) march sample_runtime
              sample_today None
              {| receipt_date := mkdate 2024 3 5; meal_type := "lunch";
                 receipt_amount := 12.5%float; merchant := None; receipt_note := None;
                 image_url := None |}
              {| advance_date := mkdate 2024 3 1; advance_amount := 0%float;
                 advance_note := None |})
    as (_ & _ & _ & _ & _ & _ & Hr & _ & _ & Ha & _).
  split; [ apply Hr; split; [ left | ]; reflexivity | apply Ha; reflexivity ].
Defined.

(** C8, as it is written, fails for a POST whose body does not pass
    validation: with no store client the answer is then 422, a client error,
    and not the server error of the gate. *)
Lemma unset_client_counterexample :
  run (memory_store rpc_missing) (post_receipt None lunch_body) march
  = (Raise (ValidationError "String should match pattern '^(lunch|dinner)$'"), march, [])
  /\ status_of (outcome (run (memory_store rpc_missing) (post_receipt None lunch_body) march))
     = 422
  /\ is_server_error
       (outcome (run (memory_store rpc_missing) (post_receipt None lunch_body) march))
     = false
  /\ is_server_error
       (outcome (run (memory_store rpc_missing)
                   (post_advance None
                      {| advance_date := mkdate 2024 3 1; advance_amount := 0%float;
                         advance_note := None |}) march))
     = false.
Proof. repeat split. Qed.

(** ** Month arguments *)

(** C4, as the code has it: when the store client is set, a month argument
    that is not empty and names no month (four decimal digits of any script
    that are not four zeros, a hyphen, a month number from 1 to 12 on one or
    two of the digits 0 to 9) makes each of the four month-scoped handlers
    answer 400 with the text that gives the format, and nothing is sent to
    the store. *)
Theorem malformed_month_is_rejected {S : Type} (b : backend S) (s : S) (rt : runtime)
  (sb : client) (today : date) (m : unicode) :
  m <> [] -> names_a_month m = false ->
  let invalid := HTTPException 400 "Invalid month format. Use YYYY-MM" in
  run b (list_receipts (Some sb) today (Some m)) s = (Raise invalid, s, [])
  /\ run b (list_advances (Some sb) today (Some m)) s = (Raise invalid, s, [])
  /\ run b (monthly_summary rt (Some sb) today (Some m)) s = (Raise invalid, s, [])
  /\ run b (export_csv rt (Some sb) today (Some m)) s = (Raise invalid, s, [])
  /\ is_client_error (Raise invalid : result unit) = true.
Proof.
  intros Hm Hn. pose proof (parse_month_rejects today m Hm Hn) as E.
  unfold list_receipts, list_advances, monthly_summary, export_csv.
  cbn [require_supabase lift pbind]. rewrite E. repeat split.
Qed.

Lemma malformed_month_example :
  unicode_of "2024-13" <> [] /\ names_a_month (unicode_of "2024-13") = false
  /\ run (memory_store rpc_missing)
       (list_receipts (Some sample_client) sample_today (Some (unicode_of "2024-13"))) march
     = (Raise (HTTPException 400 "Invalid month format. Use YYYY-MM"), march, [])
  /\ run (memory_store rpc_missing)
       (monthly_summary sample_runtime (Some sample_client) sample_today
          (Some (unicode_of "2024-13"))) march
     = (Raise (HTTPException 400 "Invalid month format. Use YYYY-MM"), march, []).
Proof.
  assert (unicode_of "2024-13" <> []) as Hm by discriminate.
  assert (names_a_month (unicode_of "2024-13") = false) as Hn by reflexivity.
  destruct (malformed_month_is_rejected (memory_store rpc_missing) march sample_runtime
              sample_client sample_today (unicode_of "2024-13") Hm Hn) as (H1 & _ & H3 & _).
  repeat split; assumption.
Defined.

(** C4, as it is written, fails on four inputs: a month on one digit is read
    as that month, a year written with the digits of another script is read
    as that year, an empty argument stands for the current month, and with
    no store client the answer is the server error of the gate. *)
Lemma month_format_counterexample :
  (matches_YYYY_MM (unicode_of "2024-2") = false
   /\ is_client_error (outcome (run (memory_store rpc_missing)
        (list_receipts (Some sample_client) sample_today (Some (unicode_of "2024-2")))
        march)) = false
   /\ sent (run (memory_store rpc_missing)
        (list_receipts (Some sample_client) sample_today (Some (unicode_of "2024-2"))) march)
      = [OnTable (listing "receipts" (mkdate 2024 2 1) (mkdate 2024 3 1))])
  /\ (matches_YYYY_MM fullwidth_2024_03 = false
      /\ is_client_error (outcome (run (memory_store rpc_missing)
           (list_receipts (Some sample_client) sample_today (Some fullwidth_2024_03))
           march)) = false
      /\ sent (run (memory_store rpc_missing)
           (list_receipts (Some sample_client) sample_today (Some fullwidth_2024_03)) march)
         = [OnTable (listing "receipts" (mkdate 2024 3 1) (mkdate 2024 4 1))])
  /\ (matches_YYYY_MM [] = false
      /\ is_client_error (outcome (run (memory_store rpc_missing)
           (list_advances (Some sample_client) sample_today (Some [])) march)) = false
      /\ sent (run (memory_store rpc_missing)
           (list_advances (Some sample_client) sample_today (Some [])) march)
         = [OnTable (listing "advances" (mkdate 2024 3 1) (mkdate 2024 4 1))])
  /\ (matches_YYYY_MM (unicode_of "March") = false
      /\ is_client_error (outcome (run (memory_store rpc_missing)
           (export_csv sample_runtime None sample_today (Some (unicode_of "March")))
           march)) = false
      /\ status_of (outcome (run (memory_store rpc_missing)
           (export_csv sample_runtime None sample_today (Some (unicode_of "March")))
           march)) = 500).
Proof. repeat split. Qed.

(** ** Validation of [meal_type] *)

(** X5: a body whose [meal_type] is not one of the two words in lower case
    is answered with 422 and nothing is sent to the store. *)
Lemma post_receipt_rejects {S : Type} (b : backend S) (s : S) (sb : option client)
  (body : ReceiptIn) :
  meal_type body <> "lunch" -> meal_type body <> "dinner" ->
  exists detail,
    run b (post_receipt sb body) s = (Raise (ValidationError detail), s, []).
Proof.
  intros N1 N2. unfold post_receipt, validate_ReceiptIn.
  destruct (validate_meal_type (meal_type body)) as [w | e] eqn:E.
  - apply validate_meal_type_Ok in E as [_ [E | E]]; contradiction.
  - unfold validate_meal_type in E.
    destruct (meal_type_pattern (meal_type body)).
    + destruct (normalize_meal_type (meal_type body)); [ discriminate | ].
      injection E as <-. eexists. reflexivity.
    + injection E as <-. eexists. reflexivity.
Qed.

(** X4: a body that passes validation is inserted with its [meal_type], one
    of the two words in lower case. *)
Lemma post_receipt_inserts {S : Type} (b : backend S) (s : S) (sb : client)
  (body : ReceiptIn) (q : request) :
  In q (sent (run b (post_receipt (Some sb) body) s)) ->
  exists data,
    q = OnTable (Insert "receipts" data)
    /\ data !! "meal_type" = Some (SStr (meal_type body))
    /\ (meal_type body = "lunch" \/ meal_type body = "dinner").
Proof.
  unfold post_receipt, validate_ReceiptIn.
  destruct (validate_meal_type (meal_type body)) as [w | e] eqn:E; [ | intros [] ].
  apply validate_meal_type_Ok in E as [-> E]. cbn [bind].
  destruct (validate_amount (receipt_amount body)) as [x | e]; [ | intros [] ].
  cbn [bind lift pbind create_receipt require_supabase execute_table run].
  destruct (exec_table b _ s) as [[d | e] s1].
  - destruct (run b _ s1) as [[out s2] rest] eqn:R. cbn [sent snd].
    rewrite run_lift in R. injection R as <- <- <-.
    intros [<- | []]. eexists. split; [ reflexivity | ]. split; [ | exact E ].
    reflexivity.
  - cbn [sent snd]. intros [<- | []]. eexists. split; [ reflexivity | ].
    split; [ | exact E ]. reflexivity.
Qed.

(** C1, where the code departs from it: the validator would turn ["LUNCH"]
    into ["lunch"], but the pattern of the field is checked first and refuses
    it, so the request is answered with 422 and nothing is inserted. *)
Theorem uppercase_meal_type_is_rejected {S : Type} (b : backend S) (s : S)
  (sb : option client) :
  normalize_meal_type "LUNCH" = Ok "lunch"
  /\ meal_type_pattern "LUNCH" = false
  /\ run b (post_receipt sb lunch_body) s
     = (Raise (ValidationError "String should match pattern '^(lunch|dinner)$'"), s, [])
  /\ is_client_error (outcome (run b (post_receipt sb lunch_body) s)) = true.
Proof. repeat split. Qed.

(** ** CSV export *)

Lemma append_assoc (a b c : string) : (a ++ b) ++ c = a ++ (b ++ c).
Proof.
  induction a as [ | x a IH]; [ reflexivity | ].
  change (String x ((a ++ b) ++ c) = String x (a ++ (b ++ c))). rewrite IH. reflexivity.
Qed.

Lemma append_nil_r (a : string) : a ++ "" = a.
Proof.
  induction a as [ | x a IH]; [ reflexivity | ].
  change (String x (a ++ "") = String x a). rewrite IH. reflexivity.
Qed.

Lemma concat_empty_cons (y : string) (ys : list string) :
  String.concat "" (y :: ys) = y ++ String.concat "" ys.
Proof. destruct ys; [ symmetry; apply append_nil_r | reflexivity ]. Qed.

(** Joining lines with a line feed and ending with one is ending every line
    with one. *)
Lemma csv_text_lines (l : string) (ls : list string) :
  csv_text (l :: ls) = l ++ LF ++ String.concat "" (map (fun x => x ++ LF) ls).
Proof.
  unfold csv_text. revert l. induction ls as [ | x ls IH]; intros l.
  - reflexivity.
  - change (String.concat LF (l :: x :: ls)) with (l ++ LF ++ String.concat LF (x :: ls)).
    rewrite !append_assoc. rewrite IH. cbn [map]. rewrite concat_empty_cons.
    rewrite !append_assoc. reflexivity.
Qed.

(** A cell that is absent is printed as the empty text, a cell that is null
    as [None]. *)
Lemma get_absent (rt : runtime) (r : row) (key : string) :
  r !! key = None -> py_str rt (get r key) = "".
Proof. unfold get. intros ->. reflexivity. Qed.

Lemma get_null (rt : runtime) (r : row) (key : string) :
  r !! key = Some SNone -> py_str rt (get r key) = "None".
Proof. unfold get. intros ->. reflexivity. Qed.

Lemma get_text (rt : runtime) (r : row) (key v : string) :
  r !! key = Some (SStr v) -> py_str rt (get r key) = v.
Proof. unfold get. intros ->. reflexivity. Qed.

(** C3, where the code departs from it: a receipt whose merchant and note are
    null (the value the insert of a receipt without them stores) is exported
    with [None] in both columns, and so is the null note of an advance; only
    a cell that is absent from the row is exported as the empty text. *)
Theorem null_cells_are_exported_as_None (rt : runtime) :
  receipt_data {| receipt_date := mkdate 2024 3 5; meal_type := "lunch";
                  receipt_amount := 12.5%float; merchant := None;
                  receipt_note := None; image_url := None |} !! "merchant" = Some SNone
  /\ receipt_line rt (receipt_row "2024-03-05" "lunch" (SFloat 12.5) SNone SNone)
     = "receipt,2024-03-05,lunch," ++ float_repr rt 12.5 ++ ",None,None"
  /\ advance_line rt (advance_row "2024-03-01" (SInt 25) SNone)
     = "advance,2024-03-01,,25,,None"
  /\ receipt_line rt {[ "date" := SStr "2024-03-05" ]} = "receipt,2024-03-05,,,,"
  /\ outcome (run (memory_store rpc_missing)
                (export_csv rt (Some sample_client) sample_today (Some (unicode_of "2024-03"))) march)
     = Ok {| content := header ++ LF
                        ++ "receipt,2024-03-05,lunch,12,None,None" ++ LF
                        ++ "receipt,2024-03-09,dinner,20,Diner,team" ++ LF
                        ++ "advance,2024-03-01,,25,,None" ++ LF;
             media_type := "text/csv" |}.
Proof. repeat split. Qed.

Lemma count_char_append (c : ascii) (a b : string) :
  count_char c (a ++ b) = (count_char c a + count_char c b)%nat.
Proof.
  induction a as [ | x a IH]; [ reflexivity | ].
  change (count_char c (String x (a ++ b))
          = (count_char c (String x a) + count_char c b)%nat).
  cbn [count_char]. rewrite IH. lia.
Qed.

Lemma total_cons (x : nat) (xs : list nat) : total (x :: xs) = (x + total xs)%nat.
Proof. reflexivity. Qed.

Lemma total_app (xs ys : list nat) : total (xs ++ ys) = (total xs + total ys)%nat.
Proof.
  induction xs as [ | x xs IH]; [ reflexivity | ].
  change (total (x :: (xs ++ ys)) = (total (x :: xs) + total ys)%nat).
  rewrite !total_cons, IH. lia.
Qed.

Lemma count_char_lines (c : ascii) (ls : list string) :
  count_char c (String.concat "" (map (fun x => x ++ LF) ls))
  = (total (map (count_char c) ls) + length ls * count_char c LF)%nat.
Proof.
  induction ls as [ | l ls IH]; [ reflexivity | ].
  cbn [map length]. rewrite concat_empty_cons, !count_char_append, IH, total_cons. lia.
Qed.

(** A piece that holds no separator is cut where the separator follows
    it. *)
Lemma split_text_piece (c : ascii) (l rest : string) :
  count_char c l = 0%nat -> split_text c (l ++ String c rest) = l :: split_text c rest.
Proof.
  induction l as [ | x l IH]; intros H.
  - change (split_text c (String c rest) = "" :: split_text c rest).
    cbn [split_text]. rewrite Ascii.eqb_refl. reflexivity.
  - change (split_text c (String x (l ++ String c rest)) = String x l :: split_text c rest).
    cbn [count_char] in H. cbn [split_text].
    destruct (Ascii.eqb x c); [ discriminate H | ].
    rewrite IH by exact H. reflexivity.
Qed.

Lemma split_text_lines (ls : list string) :
  Forall (fun l => count_char "010" l = 0%nat) ls ->
  split_text "010" (String.concat "" (map (fun x => x ++ LF) ls)) = (ls ++ [""])%list.
Proof.
  induction 1 as [ | l ls Hl _ IH]; [ reflexivity | ].
  cbn [map]. rewrite concat_empty_cons, append_assoc.
  change (LF ++ String.concat "" (map (fun x => x ++ LF) ls))
    with (String "010" (String.concat "" (map (fun x => x ++ LF) ls))).
  rewrite (split_text_piece _ _ _ Hl), IH. reflexivity.
Qed.

(** C7, as the code has it: when the two queries of the export are answered,
    the body is the header, then one line for each receipt returned and one
    line for each advance returned, in this order, every line ended by a line
    feed.  The body holds one line feed for the header, one for each row and,
    nothing being escaped, the line feeds of the cells; cut at its line
    feeds it is the header and one piece for each row when no line of a row
    holds a line feed. *)
Theorem export_csv_row_count {S : Type} (b : backend S) (s0 s1 s2 : S) (rt : runtime)
  (sb : client) (today : date) (month_ : option unicode) (start end_ : date)
  (r a : option (list row)) :
  parse_month today month_ = Ok (start, end_) ->
  exec_table b (export_of "receipts" "date,meal_type,amount,merchant,note" start end_) s0
  = (Ok r, s1) ->
  exec_table b (export_of "advances" "date,amount,note" start end_) s1 = (Ok a, s2) ->
  let rows :=
    (map (receipt_line rt) (or_empty r) ++ map (advance_line rt) (or_empty a))%list in
  exists body,
    outcome (run b (export_csv rt (Some sb) today month_) s0)
    = Ok {| content := body; media_type := "text/csv" |}
    /\ body = "type,date,meal,amount,merchant,note"
              ++ String "010" (String.concat "" (map (fun x => x ++ String "010" "") rows))
    /\ count_char "010" body
       = (1 + (length (or_empty r) + length (or_empty a))
          + total (map (count_char "010") rows))%nat
    /\ (Forall (fun line => count_char "010" line = 0%nat) rows ->
        split_text "010" body
        = ("type,date,meal,amount,merchant,note" :: rows ++ [""])%list).
Proof.
  intros Hm Hr Ha rows. eexists. split.
  { unfold export_csv. cbn [require_supabase lift pbind].
    rewrite Hm. cbn [lift pbind execute_table run]. rewrite Hr. cbn [pbind run]. rewrite Ha.
    cbn [pbind run outcome fst]. reflexivity. }
  assert (csv_text (csv_lines rt (or_empty r) (or_empty a))
          = "type,date,meal,amount,merchant,note"
            ++ String "010" (String.concat "" (map (fun x => x ++ String "010" "") rows)))
    as E by (unfold csv_lines; cbn [app]; apply csv_text_lines).
  split; [ exact E | ]. rewrite E. split.
  - rewrite count_char_append.
    change (String "010" (String.concat "" (map (fun x => x ++ String "010" "") rows)))
      with (LF ++ String.concat "" (map (fun x => x ++ LF) rows)).
    rewrite count_char_append, count_char_lines.
    unfold rows at 2. rewrite length_app, !length_map.
    change (count_char "010" "type,date,meal,amount,merchant,note") with 0%nat.
    change (count_char "010" LF) with 1%nat. lia.
  - intros H.
    rewrite (split_text_piece "010" "type,date,meal,amount,merchant,note" _ eq_refl).
    change (fun x : string => x ++ String "010" "") with (fun x : string => x ++ LF).
    rewrite (split_text_lines rows H). reflexivity.
Qed.

Lemma export_csv_of_march :
  parse_month sample_today (Some (unicode_of "2024-03"))
  = Ok (mkdate 2024 3 1, mkdate 2024 4 1)
  /\ exists body,
       outcome (run (memory_store rpc_missing)
                  (export_csv sample_runtime (Some sample_client) sample_today
                     (Some (unicode_of "2024-03"))) march)
       = Ok {| content := body; media_type := "text/csv" |}
       /\ count_char "010" body = 4%nat
       /\ split_text "010" body
          = ["type,date,meal,amount,merchant,note";
             "receipt,2024-03-05,lunch,12,None,None";
             "receipt,2024-03-09,dinner,20,Diner,team";
             "advance,2024-03-01,,25,,None";
             ""].
Proof.
  split; [ reflexivity | ].
  destruct (export_csv_row_count (memory_store rpc_missing) march march march
              sample_runtime sample_client sample_today (Some (unicode_of "2024-03"))
              (mkdate 2024 3 1) (mkdate 2024 4 1) _ _ eq_refl eq_refl eq_refl)
    as (body & Hout & _ & Hcount & Hsplit).
  exists body. split; [ exact Hout | ]. split; [ exact Hcount | ].
  apply Hsplit. repeat constructor.
Defined.

(** C7, as it is written, fails when a cell holds a line feed: one receipt
    whose note is written on two lines, and no advance, give a body of three
    lines where the claim counts two. *)
Lemma export_row_count_counterexample :
  exec_table (memory_store rpc_missing)
    (export_of "receipts" "date,meal_type,amount,merchant,note"
       (mkdate 2024 3 1) (mkdate 2024 4 1)) two_line_note
  = (Ok (Some (stored_receipts two_line_note)), two_line_note)
  /\ length (stored_receipts two_line_note) = 1%nat
  /\ length (stored_advances two_line_note) = 0%nat
  /\ exists body,
       outcome (run (memory_store rpc_missing)
                  (export_csv sample_runtime (Some sample_client) sample_today None)
                  two_line_note)
       = Ok {| content := body; media_type := "text/csv" |}
       /\ split_text "010" body
          = ["type,date,meal,amount,merchant,note";
             "receipt,2024-03-05,lunch,12,Bistro,paid";
             "cash";
             ""]
       /\ count_char "010" body = 3%nat
       /\ count_char "010" body <> (1 + 1 + 0)%nat.
Proof.
  repeat (split; [ reflexivity | ]). eexists.
  repeat (split; [ reflexivity | ]). discriminate.
Qed.

(** ** Monthly summary *)

Lemma outcome_pbind {S A B : Type} (b : backend S) (p : prog A) (f : A -> prog B) (s : S) :
  outcome (run b (pbind p f) s)
  = match run b p s with
    | (Ok a, s1, _) => outcome (run b (f a) s1)
    | (Raise e, _, _) => Raise e
    end.
Proof.
  rewrite run_pbind. destruct (run b p s) as [[[a | e] s1] sent1]; [ | reflexivity ].
  destruct (run b (f a) s1) as [[out s2] sent2]. reflexivity.
Qed.

Lemma sent_pbind {S A B : Type} (b : backend S) (p : prog A) (f : A -> prog B) (s : S) :
  sent (run b (pbind p f) s)
  = (sent (run b p s)
     ++ match run b p s with
        | (Ok a, s1, _) => sent (run b (f a) s1)
        | (Raise e, _, _) => []
        end)%list.
Proof.
  rewrite run_pbind. destruct (run b p s) as [[[a | e] s1] sent1]; cbn [sent snd].
  - destruct (run b (f a) s1) as [[out s2] sent2]. reflexivity.
  - rewrite app_nil_r. reflexivity.
Qed.

Lemma outcome_ExecTable {S A : Type} (b : backend S) (q : table_request)
  (k : option (list row) -> prog A) (s : S) :
  outcome (run b (ExecTable q k) s)
  = match exec_table b q s with
    | (Ok d, s1) => outcome (run b (k d) s1)
    | (Raise e, _) => Raise e
    end.
Proof.
  cbn [run]. destruct (exec_table b q s) as [[d | e] s1]; [ | reflexivity ].
  destruct (run b (k d) s1) as [[out s2] rest]. reflexivity.
Qed.

Lemma outcome_ExecRpc {S A : Type} (b : backend S) (c : rpc_request)
  (k : json -> prog A) (s : S) :
  outcome (run b (ExecRpc c k) s)
  = match exec_rpc b c s with
    | (Ok d, s1) => outcome (run b (k d) s1)
    | (Raise e, _) => Raise e
    end.
Proof.
  cbn [run]. destruct (exec_rpc b c s) as [[d | e] s1]; [ | reflexivity ].
  destruct (run b (k d) s1) as [[out s2] rest]. reflexivity.
Qed.

Lemma sent_ExecTable {S A : Type} (b : backend S) (q : table_request)
  (k : option (list row) -> prog A) (s : S) :
  sent (run b (ExecTable q k) s)
  = OnTable q :: match exec_table b q s with
                 | (Ok d, s1) => sent (run b (k d) s1)
                 | (Raise e, _) => []
                 end.
Proof.
  cbn [run]. destruct (exec_table b q s) as [[d | e] s1]; [ | reflexivity ].
  destruct (run b (k d) s1) as [[out s2] rest]. reflexivity.
Qed.

Lemma sent_ExecRpc {S A : Type} (b : backend S) (c : rpc_request)
  (k : json -> prog A) (s : S) :
  sent (run b (ExecRpc c k) s)
  = OnRpc c :: match exec_rpc b c s with
               | (Ok d, s1) => sent (run b (k d) s1)
               | (Raise e, _) => []
               end.
Proof.
  cbn [run]. destruct (exec_rpc b c s) as [[d | e] s1]; [ | reflexivity ].
  destruct (run b (k d) s1) as [[out s2] rest]. reflexivity.
Qed.

(** The block that computes a total sends at most the query of its
    fallback. *)
Lemma total_of_sends {S : Type} (b : backend S) (s : S) (rt : runtime) (table : string)
  (data : json) (start end_ : date) (q : request) :
  In q (sent (run b (total_of rt table data start end_) s)) ->
  q = OnTable (amounts_of table start end_).
Proof.
  unfold total_of. destruct (usable data) as [[ | ] | e]; cbn [lift pbind].
  - rewrite run_lift. intros [].
  - unfold execute_table. cbn [pbind]. rewrite sent_ExecTable.
    destruct (exec_table b _ s) as [[d | e] s1].
    + rewrite run_lift. cbn [sent snd]. intros [<- | []]. reflexivity.
    + intros [<- | []]. reflexivity.
  - intros [].
Qed.

(** With a result that is not usable, the total is the sum of the amounts of
    the rows that the fallback query returns. *)
Lemma total_of_fallback {S : Type} (b : backend S) (s s1 : S) (rt : runtime)
  (table : string) (data : json) (start end_ : date) (r2 : option (list row))
  (xs : list float) :
  usable data = Ok false ->
  exec_table b (amounts_of table start end_) s = (Ok r2, s1) ->
  amounts rt (or_empty r2) = Ok xs ->
  run b (total_of rt table data start end_) s
  = (Ok (py_sum rt xs), s1, [OnTable (amounts_of table start end_)]).
Proof.
  intros Hu Hq Hx. unfold total_of. rewrite Hu.
  cbn [lift pbind execute_table run]. rewrite Hq.
  unfold sum_of_amounts. rewrite Hx. reflexivity.
Qed.

(** With a first row whose [sum] is null, the total is 0.0 and nothing is
    asked of the store. *)
Lemma total_of_null_sum (rt : runtime) (table : string) (data : json) (start end_ : date) :
  has_null_sum data -> total_of rt table data start end_ = Ret 0%float.
Proof.
  intros (d & rest & -> & Hd). unfold total_of, usable, sum_in.
  rewrite bool_decide_eq_true_2 by (rewrite Hd; eauto).
  cbn [lift pbind]. unfold rpc_sum, getitem_sum. rewrite Hd. reflexivity.
Qed.

(** X1: an exception raised by the first call of the routine is caught
    nowhere; it ends the request after this one call. *)
Lemma rpc_failure_ends_summary {S : Type} (b : backend S) (s0 s1 : S) (rt : runtime)
  (sb : client) (today : date) (month_ : option unicode) (start end_ : date) (e : exn) :
  parse_month today month_ = Ok (start, end_) ->
  exec_rpc b (sum_amounts "receipts" start end_) s0 = (Raise e, s1) ->
  run b (monthly_summary rt (Some sb) today month_) s0
  = (Raise e, s1, [OnRpc (sum_amounts "receipts" start end_)]).
Proof.
  intros Hm Hr. unfold monthly_summary. cbn [require_supabase lift pbind].
  rewrite Hm. cbn [lift pbind execute_rpc run]. rewrite Hr. reflexivity.
Qed.

(** The block that computes a total returns exactly the sum described by
    [computed_sum], and asks the store only in the second case. *)
Lemma total_of_returns {S : Type} (b : backend S) (s s' : S) (rt : runtime)
  (table : string) (data : json) (start end_ : date) (x : float) (t : list request) :
  run b (total_of rt table data start end_) s = (Ok x, s', t) ->
  computed_sum b rt table data start end_ s x s'.
Proof.
  unfold total_of, computed_sum.
  destruct (usable data) as [[ | ] | e]; cbn [lift pbind].
  - rewrite run_lift. intros H. injection H as H <- _. left. auto.
  - cbn [execute_table pbind run].
    destruct (exec_table b _ s) as [[rows | e] s1]; [ | discriminate ].
    rewrite run_lift. unfold sum_of_amounts.
    destruct (amounts rt (or_empty rows)) as [xs | e] eqn:E; cbn [bind]; [ | discriminate ].
    intros H. injection H as <- <- _. right. split; [ reflexivity | ].
    exists rows, xs. auto.
  - discriminate.
Qed.

Lemma computed_sum_run {S : Type} (b : backend S) (s s' : S) (rt : runtime)
  (table : string) (data : json) (start end_ : date) (x : float) :
  computed_sum b rt table data start end_ s x s' ->
  run b (total_of rt table data start end_) s
  = (Ok x, s', match usable data with
               | Ok false => [OnTable (amounts_of table start end_)]
               | _ => []
               end).
Proof.
  intros [(U & R & ->) | (U & rows & xs & Q & A & ->)]; rewrite U.
  - unfold total_of. rewrite U. cbn [lift pbind]. rewrite run_lift, R. reflexivity.
  - exact (total_of_fallback b s s' rt table data start end_ rows xs U Q A).
Qed.

Lemma computed_sum_fallback {S : Type} (b : backend S) (s s' : S) (rt : runtime)
  (table : string) (data : json) (start end_ : date) (x : float) :
  computed_sum b rt table data start end_ s x s' ->
  usable data = Ok false ->
  exists rows xs,
    exec_table b (amounts_of table start end_) s = (Ok rows, s')
    /\ amounts rt (or_empty rows) = Ok xs
    /\ x = py_sum rt xs.
Proof. intros [(U & _) | (_ & H)] N; [ congruence | exact H ]. Qed.

(** C2, where the code departs from it, and where it holds.  When the
    routine is unavailable the call of [sum_amounts] raises, for receipts or
    for advances, and the request ends with that exception before any row is
    fetched: there is no fallback, although line 185 announces one.  When
    the two calls return, each table is treated for itself: a result that is
    not usable makes the code fetch the rows of that table and add their
    amounts, whatever the result for the other table is, and the request
    succeeds with the two totals, rounded to two decimals, once the rows of
    lunch and of dinner are returned with amounts that are numbers. *)
Theorem fallback_per_table {S : Type} (b : backend S) (s0 : S) (rt : runtime)
  (sb : client) (today : date) (month_ : option unicode) (start end_ : date) :
  parse_month today month_ = Ok (start, end_) ->
  let answer := run b (monthly_summary rt (Some sb) today month_) s0 in
  let ask_receipts := OnRpc (sum_amounts "receipts" start end_) in
  let ask_advances := OnRpc (sum_amounts "advances" start end_) in
  (forall e s1,
     exec_rpc b (sum_amounts "receipts" start end_) s0 = (Raise e, s1) ->
     answer = (Raise e, s1, [ask_receipts]))
  /\ (forall r e s1 s2,
        exec_rpc b (sum_amounts "receipts" start end_) s0 = (Ok r, s1) ->
        exec_rpc b (sum_amounts "advances" start end_) s1 = (Raise e, s2) ->
        answer = (Raise e, s2, [ask_receipts; ask_advances]))
  /\ (forall r a s1 s2 s3 s4 s5 s6 receipts_sum advances_sum l d lunch dinner,
        exec_rpc b (sum_amounts "receipts" start end_) s0 = (Ok r, s1) ->
        exec_rpc b (sum_amounts "advances" start end_) s1 = (Ok a, s2) ->
        computed_sum b rt "receipts" r start end_ s2 receipts_sum s3 ->
        computed_sum b rt "advances" a start end_ s3 advances_sum s4 ->
        exec_table b (amounts_of_meal "lunch" start end_) s4 = (Ok l, s5) ->
        exec_table b (amounts_of_meal "dinner" start end_) s5 = (Ok d, s6) ->
        sum_of_amounts rt (or_empty l) = Ok lunch ->
        sum_of_amounts rt (or_empty d) = Ok dinner ->
        outcome answer
        = Ok {| summary_month := strftime_Ym rt start;
                receipts_total := py_round2 receipts_sum;
                advances_total := py_round2 advances_sum;
                lunch_total := py_round2 lunch;
                dinner_total := py_round2 dinner;
                net := py_round2 (receipts_sum - advances_sum)%float |}
        /\ (usable r = Ok false ->
            In (OnTable (amounts_of "receipts" start end_)) (sent answer)
            /\ exists rows xs,
                 exec_table b (amounts_of "receipts" start end_) s2 = (Ok rows, s3)
                 /\ amounts rt (or_empty rows) = Ok xs
                 /\ receipts_sum = py_sum rt xs)
        /\ (usable a = Ok false ->
            In (OnTable (amounts_of "advances" start end_)) (sent answer)
            /\ exists rows xs,
                 exec_table b (amounts_of "advances" start end_) s3 = (Ok rows, s4)
                 /\ amounts rt (or_empty rows) = Ok xs
                 /\ advances_sum = py_sum rt xs)).
Proof.
  intros Hm answer ask_receipts ask_advances.
  subst answer ask_receipts ask_advances. unfold monthly_summary.
  cbn [require_supabase lift pbind]. rewrite Hm. cbn [lift pbind execute_rpc].
  split; [ | split ].
  - intros e s1 Hr. cbn [run]. rewrite Hr. reflexivity.
  - intros r e s1 s2 Hr Ha. cbn [run pbind]. rewrite Hr. cbn [run]. rewrite Ha. reflexivity.
  - intros r a s1 s2 s3 s4 s5 s6 receipts_sum advances_sum l d lunch dinner
      Hr Ha Cr Ca Hl Hd Xl Xd.
    rewrite sent_ExecRpc, outcome_ExecRpc, Hr. cbn [pbind].
    rewrite sent_ExecRpc, outcome_ExecRpc, Ha.
    rewrite sent_pbind, outcome_pbind, (computed_sum_run _ _ _ _ _ _ _ _ _ Cr).
    rewrite sent_pbind, outcome_pbind, (computed_sum_run _ _ _ _ _ _ _ _ _ Ca).
    cbn [sent snd]. split; [ | split ].
    + cbn [pbind execute_table]. rewrite outcome_ExecTable, Hl.
      cbn [pbind]. rewrite outcome_ExecTable, Hd.
      rewrite Xl, Xd. reflexivity.
    + intros U. split; [ | exact (computed_sum_fallback _ _ _ _ _ _ _ _ _ Cr U) ].
      rewrite U. right. right. left. reflexivity.
    + intros U. split; [ | exact (computed_sum_fallback _ _ _ _ _ _ _ _ _ Ca U) ].
      rewrite U. right. right. apply in_or_app. right. left. reflexivity.
Qed.

(** The routine is not installed; and the routine answers for receipts
    only, with 99.5 where the rows of March add up to 32. *)
Lemma fallback_of_march :
  parse_month sample_today None = Ok (mkdate 2024 3 1, mkdate 2024 4 1)
  /\ run (memory_store rpc_missing)
       (monthly_summary sample_runtime (Some sample_client) sample_today None) march
     = (Raise (StoreError "Could not find the function public.sum_amounts"), march,
        [OnRpc (sum_amounts "receipts" (mkdate 2024 3 1) (mkdate 2024 4 1))])
  /\ outcome (run (memory_store (rpc_for_receipts (SFloat 99.5)))
                (monthly_summary sample_runtime (Some sample_client) sample_today None)
                march)
     = Ok {| summary_month := "2024-03"; receipts_total := 99.5%float;
             advances_total := 25%float; lunch_total := 12%float;
             dinner_total := 20%float; net := 74.5%float |}.
Proof.
  split; [ reflexivity | ]. split.
  - exact (proj1 (fallback_per_table (memory_store rpc_missing) march sample_runtime
                    sample_client sample_today None (mkdate 2024 3 1) (mkdate 2024 4 1)
                    eq_refl) _ march eq_refl).
  - refine (proj1 (proj2 (proj2 (fallback_per_table
              (memory_store (rpc_for_receipts (SFloat 99.5))) march sample_runtime
              sample_client sample_today None (mkdate 2024 3 1) (mkdate 2024 4 1) eq_refl))
              _ _ march march march march march march 99.5%float 25%float _ _
              12%float 20%float eq_refl eq_refl _ _ eq_refl eq_refl eq_refl eq_refl)).
    + left. repeat split.
    + right. split; [ reflexivity | ].
      exists (Some [advance_row "2024-03-01" (SInt 25) SNone]), [25%float].
      repeat split.
Defined.

(** C5, as the code has it: in every summary returned, [net] is the
    difference of the two sums that the code has computed, rounded to two
    decimals, and [receipts_total] and [advances_total] are these same two
    sums, rounded each for itself.  The sum of a table is the value of the
    routine, or the sum of the rows of the fallback ([computed_sum]). *)
Theorem net_is_rounded_difference {S : Type} (b : backend S) (s : S) (rt : runtime)
  (supabase_client : option client) (today : date) (month_ : option unicode)
  (sm : summary) :
  outcome (run b (monthly_summary rt supabase_client today month_) s) = Ok sm ->
  exists start end_ r a s1 s2 s3 s4 receipts_sum advances_sum,
    parse_month today month_ = Ok (start, end_)
    /\ exec_rpc b (sum_amounts "receipts" start end_) s = (Ok r, s1)
    /\ exec_rpc b (sum_amounts "advances" start end_) s1 = (Ok a, s2)
    /\ computed_sum b rt "receipts" r start end_ s2 receipts_sum s3
    /\ computed_sum b rt "advances" a start end_ s3 advances_sum s4
    /\ receipts_total sm = py_round2 receipts_sum
    /\ advances_total sm = py_round2 advances_sum
    /\ net sm = py_round2 (receipts_sum - advances_sum)%float.
Proof.
  unfold monthly_summary. intros H.
  destruct supabase_client as [sb | ]; cbn [require_supabase lift pbind] in H;
    [ | discriminate ].
  destruct (parse_month today month_) as [[start end_] | e]; cbn [lift pbind] in H;
    [ | discriminate ].
  cbn [execute_rpc pbind] in H. rewrite outcome_ExecRpc in H.
  destruct (exec_rpc b _ s) as [[r | e] s1] eqn:Hr; [ | discriminate ].
  cbn [pbind] in H. rewrite outcome_ExecRpc in H.
  destruct (exec_rpc b _ s1) as [[a | e] s2] eqn:Ha; [ | discriminate ].
  rewrite outcome_pbind in H.
  destruct (run b (total_of rt "receipts" r start end_) s2)
    as [[[receipts_sum | e] s3] t3] eqn:Tr; [ | discriminate ].
  rewrite outcome_pbind in H.
  destruct (run b (total_of rt "advances" a start end_) s3)
    as [[[advances_sum | e] s4] t4] eqn:Ta; [ | discriminate ].
  cbn [execute_table pbind] in H. rewrite outcome_ExecTable in H.
  destruct (exec_table b _ s4) as [[l | e] s5]; [ | discriminate ].
  cbn [pbind] in H. rewrite outcome_ExecTable in H.
  destruct (exec_table b _ s5) as [[d | e] s6]; [ | discriminate ].
  destruct (sum_of_amounts rt (or_empty l)) as [lunch | e]; [ | discriminate ].
  destruct (sum_of_amounts rt (or_empty d)) as [dinner | e]; [ | discriminate ].
  cbn [lift pbind run outcome fst] in H. injection H as <-.
  exists start, end_, r, a, s1, s2, s3, s4, receipts_sum, advances_sum.
  split; [ reflexivity | ]. split; [ exact Hr | ]. split; [ exact Ha | ].
  split; [ exact (total_of_returns _ _ _ _ _ _ _ _ _ _ Tr) | ].
  split; [ exact (total_of_returns _ _ _ _ _ _ _ _ _ _ Ta) | ].
  repeat split.
Qed.

(** With no usable result, the sums of March are those of its rows: 32 and
    25. *)
Lemma net_of_march :
  outcome (run (memory_store (rpc_answers (JScalar SNone)))
             (monthly_summary sample_runtime (Some sample_client) sample_today None) march)
  = Ok {| summary_month := "2024-03"; receipts_total := 32%float;
          advances_total := 25%float; lunch_total := 12%float;
          dinner_total := 20%float; net := 7%float |}
  /\ exists receipts_sum advances_sum : float,
       computed_sum (memory_store (rpc_answers (JScalar SNone))) sample_runtime "receipts"
         (JScalar SNone) (mkdate 2024 3 1) (mkdate 2024 4 1) march receipts_sum march
       /\ computed_sum (memory_store (rpc_answers (JScalar SNone))) sample_runtime "advances"
            (JScalar SNone) (mkdate 2024 3 1) (mkdate 2024 4 1) march advances_sum march
       /\ 32%float = py_round2 receipts_sum
       /\ 25%float = py_round2 advances_sum
       /\ 7%float = py_round2 (receipts_sum - advances_sum)%float.
Proof.
  split; [ reflexivity | ].
  destruct (net_is_rounded_difference (memory_store (rpc_answers (JScalar SNone))) march
              sample_runtime (Some sample_client) sample_today None _ eq_refl)
    as (start & end_ & r & a & s1 & s2 & s3 & s4 & receipts_sum & advances_sum
        & Hm & Hr & Ha & Cr & Ca & H).
  injection Hm as <- <-. injection Hr as <- <-. injection Ha as <- <-.
  assert (s3 = march) as ->.
  { destruct Cr as [(_ & _ & ->) | (_ & rows & xs & Q & _)];
      [ reflexivity | injection Q as _ <-; reflexivity ]. }
  assert (s4 = march) as ->.
  { destruct Ca as [(_ & _ & ->) | (_ & rows & xs & Q & _)];
      [ reflexivity | injection Q as _ <-; reflexivity ]. }
  exists receipts_sum, advances_sum. split; [ exact Cr | ]. split; [ exact Ca | ]. exact H.
Defined.

(** C5, as it is written, fails when the rounding moves: with sums of 0.006
    and 0.002 the totals returned are 0.01 and 0.0, whose difference rounds
    to 0.01, and [net] is 0.0, the rounding of 0.004. *)
Lemma net_counterexample :
  exists sm,
    outcome (run (memory_store (rpc_sums (SFloat 0.006) (SFloat 0.002)))
               (monthly_summary sample_runtime (Some sample_client) sample_today None)
               march) = Ok sm
    /\ receipts_total sm = 0.01%float
    /\ advances_total sm = 0%float
    /\ net sm = 0%float
    /\ py_round2 (receipts_total sm - advances_total sm)%float = 0.01%float
    /\ net sm <> py_round2 (receipts_total sm - advances_total sm)%float.
Proof.
  eexists. split; [ reflexivity | ]. repeat (split; [ reflexivity | ]).
  cbn [net receipts_total advances_total]. intros E. apply (f_equal Prim2SF) in E.
  vm_compute in E. discriminate E.
Qed.

(** The requests of the summary after the two calls of the routine. *)
Lemma summary_tail_sends {S : Type} (b : backend S) (s : S) (rt : runtime)
  (a : json) (start end_ : date) (receipts_sum : float) (q : request) :
  In q (sent (run b
    (let! advances_sum := total_of rt "advances" a start end_ in
     let! r_lunch := execute_table (amounts_of_meal "lunch" start end_) in
     let! r_dinner := execute_table (amounts_of_meal "dinner" start end_) in
     let! lunch := lift (sum_of_amounts rt (or_empty r_lunch)) in
     let! dinner := lift (sum_of_amounts rt (or_empty r_dinner)) in
     Ret {| summary_month := strftime_Ym rt start;
            receipts_total := py_round2 receipts_sum;
            advances_total := py_round2 advances_sum;
            lunch_total := py_round2 lunch;
            dinner_total := py_round2 dinner;
            net := py_round2 (receipts_sum - advances_sum)%float |}) s)) ->
  q = OnTable (amounts_of "advances" start end_)
  \/ q = OnTable (amounts_of_meal "lunch" start end_)
  \/ q = OnTable (amounts_of_meal "dinner" start end_).
Proof.
  rewrite sent_pbind. intros H. apply in_app_or in H as [H | H].
  - left. apply (total_of_sends _ _ _ _ _ _ _ _ H).
  - right. destruct (run b (total_of rt "advances" a start end_) s)
      as [[[advances_sum | e] s4] t4]; [ | destruct H ].
    cbn [execute_table pbind] in H. rewrite sent_ExecTable in H.
    destruct H as [<- | H]; [ left; reflexivity | right ].
    destruct (exec_table b _ s4) as [[l | e] s5]; [ | destruct H ].
    cbn [pbind] in H. rewrite sent_ExecTable in H.
    destruct H as [<- | H]; [ reflexivity | exfalso ].
    destruct (exec_table b _ s5) as [[d | e] s6]; [ | destruct H ].
    destruct (sum_of_amounts rt (or_empty l)) as [lunch | e]; [ | destruct H ].
    destruct (sum_of_amounts rt (or_empty d)) as [dinner | e]; destruct H.
Qed.

(** C9: when [sum_amounts] answers with a list whose first row holds [sum]
    with a null value, the total of that table is 0.0 and the rows of the
    table are not fetched to be summed; this holds for receipts and for
    advances. *)
Theorem null_rpc_sum_counts_as_zero {S : Type} (b : backend S) (s0 s1 s2 : S)
  (rt : runtime) (sb : client) (today : date) (month_ : option unicode)
  (start end_ : date) (r a : json) :
  parse_month today month_ = Ok (start, end_) ->
  exec_rpc b (sum_amounts "receipts" start end_) s0 = (Ok r, s1) ->
  exec_rpc b (sum_amounts "advances" start end_) s1 = (Ok a, s2) ->
  let answer := run b (monthly_summary rt (Some sb) today month_) s0 in
  (has_null_sum r ->
   ~ In (OnTable (amounts_of "receipts" start end_)) (sent answer)
   /\ forall sm, outcome answer = Ok sm -> receipts_total sm = 0%float)
  /\ (has_null_sum a ->
      ~ In (OnTable (amounts_of "advances" start end_)) (sent answer)
      /\ forall sm, outcome answer = Ok sm -> advances_total sm = 0%float).
Proof.
  intros Hm Hr Ha answer. subst answer. unfold monthly_summary.
  cbn [require_supabase lift pbind]. rewrite Hm. cbn [lift pbind execute_rpc].
  rewrite sent_ExecRpc, outcome_ExecRpc, Hr. cbn [pbind].
  rewrite sent_ExecRpc, outcome_ExecRpc, Ha.
  split; intros Hnull.
  - rewrite sent_pbind, outcome_pbind.
    rewrite (total_of_null_sum rt "receipts" r start end_ Hnull). cbn [run sent snd app].
    split.
    + intros [H | [H | H]]; [ discriminate H | discriminate H | ].
      apply summary_tail_sends in H as [H | [H | H]]; discriminate H.
    + intros sm H. rewrite outcome_pbind in H.
      destruct (run b (total_of rt "advances" a start end_) s2)
        as [[[advances_sum | e] s4] t4]; [ | discriminate ].
      cbn [execute_table pbind] in H. rewrite outcome_ExecTable in H.
      destruct (exec_table b _ s4) as [[l | e] s5]; [ | discriminate ].
      cbn [pbind] in H. rewrite outcome_ExecTable in H.
      destruct (exec_table b _ s5) as [[d | e] s6]; [ | discriminate ].
      destruct (sum_of_amounts rt (or_empty l)) as [lunch | e]; [ | discriminate ].
      destruct (sum_of_amounts rt (or_empty d)) as [dinner | e]; [ | discriminate ].
      cbn [lift pbind run outcome fst] in H. injection H as <-. reflexivity.
  - rewrite sent_pbind, outcome_pbind.
    destruct (run b (total_of rt "receipts" r start end_) s2)
      as [[[receipts_sum | e] s3] t3] eqn:R.
    + rewrite sent_pbind, outcome_pbind.
      rewrite (total_of_null_sum rt "advances" a start end_ Hnull).
      cbn [run sent snd app]. split.
      * intros [H | [H | H]]; [ discriminate H | discriminate H | ].
        apply in_app_or in H as [H | H].
        { assert (In (OnTable (amounts_of "advances" start end_))
                    (sent (run b (total_of rt "receipts" r start end_) s2))) as H'
            by (rewrite R; exact H).
          apply total_of_sends in H'. discriminate H'. }
        cbn [execute_table pbind] in H. rewrite sent_ExecTable in H.
        destruct H as [H | H]; [ discriminate H | ].
        destruct (exec_table b _ s3) as [[l | e] s5]; [ | destruct H ].
        cbn [pbind] in H. rewrite sent_ExecTable in H.
        destruct H as [H | H]; [ discriminate H | ].
        destruct (exec_table b _ s5) as [[d | e] s6]; [ | destruct H ].
        destruct (sum_of_amounts rt (or_empty l)) as [lunch | e]; [ | destruct H ].
        destruct (sum_of_amounts rt (or_empty d)) as [dinner | e]; destruct H.
      * intros sm H. cbn [execute_table pbind] in H. rewrite outcome_ExecTable in H.
        destruct (exec_table b _ s3) as [[l | e] s5]; [ | discriminate ].
        cbn [pbind] in H. rewrite outcome_ExecTable in H.
        destruct (exec_table b _ s5) as [[d | e] s6]; [ | discriminate ].
        destruct (sum_of_amounts rt (or_empty l)) as [lunch | e]; [ | discriminate ].
        destruct (sum_of_amounts rt (or_empty d)) as [dinner | e]; [ | discriminate ].
        cbn [lift pbind run outcome fst] in H. injection H as <-. reflexivity.
    + cbn [sent snd]. split; [ | intros sm H; discriminate H ].
      intros [H | [H | H]]; [ discriminate H | discriminate H | ].
      rewrite app_nil_r in H.
      assert (In (OnTable (amounts_of "advances" start end_))
                (sent (run b (total_of rt "receipts" r start end_) s2))) as H'
        by (rewrite R; exact H).
      apply total_of_sends in H'. discriminate H'.
Qed.

Lemma null_sums_of_march :
  has_null_sum (JList [JDict {[ "sum" := JScalar SNone ]}])
  /\ outcome (run (memory_store (rpc_sums SNone SNone))
                (monthly_summary sample_runtime (Some sample_client) sample_today None) march)
     = Ok {| summary_month := "2024-03"; receipts_total := 0%float;
             advances_total := 0%float; lunch_total := 12%float;
             dinner_total := 20%float; net := 0%float |}
  /\ ~ In (OnTable (amounts_of "receipts" (mkdate 2024 3 1) (mkdate 2024 4 1)))
          (sent (run (memory_store (rpc_sums SNone SNone))
                   (monthly_summary sample_runtime (Some sample_client) sample_today None)
                   march))
  /\ ~ In (OnTable (amounts_of "advances" (mkdate 2024 3 1) (mkdate 2024 4 1)))
          (sent (run (memory_store (rpc_sums SNone SNone))
                   (monthly_summary sample_runtime (Some sample_client) sample_today None)
                   march)).
Proof.
  assert (has_null_sum (JList [JDict {[ "sum" := JScalar SNone ]}])) as Hnull.
  { exists {[ "sum" := JScalar SNone ]}, []. split; reflexivity. }
  split; [ exact Hnull | ]. split; [ reflexivity | ].
  destruct (null_rpc_sum_counts_as_zero (memory_store (rpc_sums SNone SNone))
              march march march sample_runtime sample_client sample_today None
              (mkdate 2024 3 1) (mkdate 2024 4 1) _ _ eq_refl eq_refl eq_refl)
    as [Hr Ha].
  split; [ exact (proj1 (Hr Hnull)) | exact (proj1 (Ha Hnull)) ].
Defined.

(** ** Further properties of the handlers *)

Lemma missing_routine_fails :
  parse_month sample_today None = Ok (mkdate 2024 3 1, mkdate 2024 4 1)
  /\ run (memory_store rpc_missing)
       (monthly_summary sample_runtime (Some sample_client) sample_today None) march
     = (Raise (StoreError "Could not find the function public.sum_amounts"), march,
        [OnRpc (sum_amounts "receipts" (mkdate 2024 3 1) (mkdate 2024 4 1))]).
Proof.
  split; [ reflexivity | ].
  exact (rpc_failure_ends_summary (memory_store rpc_missing) march march sample_runtime
           sample_client sample_today None (mkdate 2024 3 1) (mkdate 2024 4 1) _
           eq_refl eq_refl).
Defined.

(** X2: the range that [parse_month] returns holds the days of one month and
    no other: the end is the day that follows the last day of the month of
    the start. *)
Theorem parse_month_spans_the_month (today : date) (month_ : option unicode)
  (start end_ : date) :
  parse_month today month_ = Ok (start, end_) ->
  toordinal end_ = toordinal start + days_in_month (year start) (month start).
Proof.
  intros H. apply parse_month_start in H as (Hd & Hy & Hm & Hend).
  destruct start as [y m d]. cbn [year month day] in *. subst d.
  rewrite replace_next_year, replace_next_month in Hend. cbn [year month] in Hend.
  rewrite <- (first_of_next_month_follows y m Hm). f_equal.
  unfold first_of_next_month.
  destruct (m =? 12); apply date_new_Ok in Hend as [-> _]; reflexivity.
Qed.

Lemma february_2024_has_29_days :
  parse_month sample_today (Some (unicode_of "2024-02")) = Ok (mkdate 2024 2 1, mkdate 2024 3 1)
  /\ toordinal (mkdate 2024 3 1) = toordinal (mkdate 2024 2 1) + 29.
Proof.
  split; [ reflexivity | ].
  exact (parse_month_spans_the_month sample_today (Some (unicode_of "2024-02"))
           (mkdate 2024 2 1) (mkdate 2024 3 1) eq_refl).
Defined.

Lemma replace_outcomes (d : date) (y m dd : option Z) :
  (exists x, replace d y m dd = Ok x) \/ replace d y m dd = Raise ValueError.
Proof.
  unfold replace.
  match goal with
  | |- context [date_new ?a ?b ?c] => destruct (date_new_outcomes a b c) as [E | E]
  end; rewrite E; eauto.
Qed.

(** X3: [parse_month] answers 400 exactly for the arguments that are not
    empty and name no month: a text names a month when it is four decimal
    digits, of any script, that are not four zeros, a hyphen, and a month
    number from 1 to 12 on one or two of the digits 0 to 9. *)
Theorem parse_month_client_error_iff (today : date) (s : unicode) :
  parse_month today (Some s) = Raise (HTTPException 400 "Invalid month format. Use YYYY-MM")
  <-> s <> [] /\ names_a_month s = false.
Proof.
  split.
  - intros H. split.
    + intros ->. unfold parse_month in H.
      destruct (replace_outcomes today None None (Some 1)) as [[st E] | E];
        rewrite E in H; [ | discriminate H ].
      cbn [bind] in H.
      destruct (month st =? 12);
        match type of H with
        | context [replace ?d ?y ?m ?dd] =>
            destruct (replace_outcomes d y m dd) as [[en E2] | E2]; rewrite E2 in H
        end; discriminate H.
    + destruct (names_a_month s) eqn:E; [ exfalso | reflexivity ].
      apply strptime_Ym_accepts in E as (y & m & E & Hy & Hm).
      rewrite (parse_month_of_strptime today s y m E Hy Hm) in H.
      destruct ((y =? MAXYEAR) && (m =? 12)); discriminate H.
  - intros [Hs Hn]. apply parse_month_rejects; assumption.
Qed.

Lemma lunch_is_inserted :
  In (OnTable (Insert "receipts"
        (receipt_data {| receipt_date := mkdate 2024 3 5; meal_type := "lunch";
                         receipt_amount := 12.5%float; merchant := None;
                         receipt_note := None; image_url := None |})))
     (sent (run (memory_store rpc_missing)
              (post_receipt (Some sample_client)
                 {| receipt_date := mkdate 2024 3 5; meal_type := "lunch";
                    receipt_amount := 12.5%float; merchant := None;
                    receipt_note := None; image_url := None |}) march))
  /\ exists data,
       OnTable (Insert "receipts"
         (receipt_data {| receipt_date := mkdate 2024 3 5; meal_type := "lunch";
                          receipt_amount := 12.5%float; merchant := None;
                          receipt_note := None; image_url := None |}))
       = OnTable (Insert "receipts" data)
       /\ data !! "meal_type" = Some (SStr "lunch")
       /\ ("lunch" = "lunch" \/ "lunch" = "dinner").
Proof.
  assert (In (OnTable (Insert "receipts"
        (receipt_data {| receipt_date := mkdate 2024 3 5; meal_type := "lunch";
                         receipt_amount := 12.5%float; merchant := None;
                         receipt_note := None; image_url := None |})))
     (sent (run (memory_store rpc_missing)
              (post_receipt (Some sample_client)
                 {| receipt_date := mkdate 2024 3 5; meal_type := "lunch";
                    receipt_amount := 12.5%float; merchant := None;
                    receipt_note := None; image_url := None |}) march))) as H
    by (left; reflexivity).
  split; [ exact H | ].
  exact (post_receipt_inserts (memory_store rpc_missing) march sample_client _ _ H).
Defined.

Lemma brunch_is_rejected :
  "brunch" <> "lunch" /\ "brunch" <> "dinner"
  /\ exists detail,
       run (memory_store rpc_missing)
         (post_receipt (Some sample_client)
            {| receipt_date := mkdate 2024 3 5; meal_type := "brunch";
               receipt_amount := 12.5%float; merchant := None;
               receipt_note := None; image_url := None |}) march
       = (Raise (ValidationError detail), march, []).
Proof.
  assert ("brunch" <> "lunch") as N1 by discriminate.
  assert ("brunch" <> "dinner") as N2 by discriminate.
  split; [ exact N1 | ]. split; [ exact N2 | ].
  exact (post_receipt_rejects (memory_store rpc_missing) march (Some sample_client)
           {| receipt_date := mkdate 2024 3 5; meal_type := "brunch";
              receipt_amount := 12.5%float; merchant := None;
              receipt_note := None; image_url := None |} N1 N2).
Defined.

(** X6: the two inserts send one request; the first row returned is the
    answer, and a response without a row is the failure of lines 115 and
    141. *)
Theorem create_outcome {S : Type} (b : backend S) (s : S) (sb : client)
  (receipt : ReceiptIn) (advance : AdvanceIn) :
  run b (create_receipt (Some sb) receipt) s
  = match exec_table b (Insert "receipts" (receipt_data receipt)) s with
    | (Ok (Some (r :: _)), s1) =>
        (Ok r, s1, [OnTable (Insert "receipts" (receipt_data receipt))])
    | (Ok _, s1) =>
        (Raise (HTTPException 500 "Failed to insert receipt"), s1,
         [OnTable (Insert "receipts" (receipt_data receipt))])
    | (Raise e, s1) => (Raise e, s1, [OnTable (Insert "receipts" (receipt_data receipt))])
    end
  /\ run b (create_advance (Some sb) advance) s
     = match exec_table b (Insert "advances" (advance_data advance)) s with
       | (Ok (Some (r :: _)), s1) =>
           (Ok r, s1, [OnTable (Insert "advances" (advance_data advance))])
       | (Ok _, s1) =>
           (Raise (HTTPException 500 "Failed to insert advance"), s1,
            [OnTable (Insert "advances" (advance_data advance))])
       | (Raise e, s1) => (Raise e, s1, [OnTable (Insert "advances" (advance_data advance))])
       end.
Proof.
  unfold create_receipt, create_advance.
  cbn [require_supabase lift pbind execute_table run].
  split.
  - destruct (exec_table b _ s) as [[[[ | r rest] | ] | e] s1]; reflexivity.
  - destruct (exec_table b _ s) as [[[[ | r rest] | ] | e] s1]; reflexivity.
Qed.

(** X7: without a URL, or with a URL and no key, there is no client; the key
    is the first of the three variables that is set and not empty. *)
Theorem client_needs_url_and_key (url service anon key : option string)
  (create_client : string -> string -> result client) :
  supabase_client_of {| env_SUPABASE_URL := None;
                        env_SUPABASE_SERVICE_ROLE_KEY := service;
                        env_SUPABASE_ANON_KEY := anon;
                        env_SUPABASE_KEY := key |} create_client = None
  /\ supabase_client_of {| env_SUPABASE_URL := url;
                           env_SUPABASE_SERVICE_ROLE_KEY := None;
                           env_SUPABASE_ANON_KEY := None;
                           env_SUPABASE_KEY := None |} create_client = None
  /\ SUPABASE_KEY {| env_SUPABASE_URL := url;
                     env_SUPABASE_SERVICE_ROLE_KEY := Some "";
                     env_SUPABASE_ANON_KEY := anon;
                     env_SUPABASE_KEY := key |}
     = getenv_or anon key.
Proof.
  repeat split. unfold supabase_client_of. cbn.
  destruct url as [[ | c u] | ]; reflexivity.
Qed.


(** ** What the handlers send *)

Lemma total_of_sublist {S : Type} (b : backend S) (s : S) (rt : runtime) (table : string)
  (data : json) (start end_ : date) :
  sent (run b (total_of rt table data start end_) s)
  `sublist_of` [OnTable (amounts_of table start end_)].
Proof.
  unfold total_of. destruct (usable data) as [[ | ] | e]; cbn [lift pbind].
  - rewrite run_lift. apply sublist_nil_l.
  - unfold execute_table. cbn [pbind]. rewrite sent_ExecTable.
    apply sublist_skip.
    destruct (exec_table b _ s) as [[d | e] s1]; [ rewrite run_lift | ]; constructor.
  - apply sublist_nil_l.
Qed.

Lemma summary_plan_NoDup (start end_ : date) : NoDup (summary_plan start end_).
Proof.
  unfold summary_plan, sum_amounts, amounts_of, amounts_of_meal, in_month.
  repeat (apply NoDup_cons; split;
          [ rewrite ?elem_of_cons, elem_of_nil; intros H;
            repeat (destruct H as [H | H]; [ discriminate H | ]); exact H | ]).
  apply NoDup_nil. exact I.
Qed.

(** The requests of a summary, whatever the arguments. *)
Lemma summary_requests {S : Type} (b : backend S) (s : S) (rt : runtime)
  (supabase_client : option client) (today : date) (month_ : option unicode) :
  match parse_month today month_ with
  | Ok (start, end_) =>
      sent (run b (monthly_summary rt supabase_client today month_) s)
      `sublist_of` summary_plan start end_
  | Raise _ => sent (run b (monthly_summary rt supabase_client today month_) s) = []
  end.
Proof.
  unfold monthly_summary.
  destruct supabase_client as [sb | ]; cbn [require_supabase lift pbind].
  2:{ destruct (parse_month today month_) as [[start end_] | e];
        [ apply sublist_nil_l | reflexivity ]. }
  destruct (parse_month today month_) as [[start end_] | e]; cbn [lift pbind];
    [ | reflexivity ].
  cbn [execute_rpc pbind]. rewrite sent_ExecRpc. unfold summary_plan. apply sublist_skip.
  destruct (exec_rpc b _ s) as [[r | e] s1]; [ | apply sublist_nil_l ].
  cbn [pbind]. rewrite sent_ExecRpc. apply sublist_skip.
  destruct (exec_rpc b _ s1) as [[a | e] s2]; [ | apply sublist_nil_l ].
  rewrite sent_pbind.
  apply (sublist_app _ [_] _ _); [ apply total_of_sublist | ].
  destruct (run b (total_of rt "receipts" r start end_) s2)
    as [[[receipts_sum | e] s3] t3]; [ | apply sublist_nil_l ].
  rewrite sent_pbind.
  apply (sublist_app _ [_] _ _); [ apply total_of_sublist | ].
  destruct (run b (total_of rt "advances" a start end_) s3)
    as [[[advances_sum | e] s4] t4]; [ | apply sublist_nil_l ].
  cbn [execute_table pbind]. rewrite sent_ExecTable. apply sublist_skip.
  destruct (exec_table b _ s4) as [[l | e] s5]; [ | apply sublist_nil_l ].
  cbn [pbind]. rewrite sent_ExecTable. apply sublist_skip.
  destruct (exec_table b _ s5) as [[d | e] s6]; [ | apply sublist_nil_l ].
  destruct (sum_of_amounts rt (or_empty l)) as [lunch | e]; [ | apply sublist_nil_l ].
  destruct (sum_of_amounts rt (or_empty d)) as [dinner | e]; apply sublist_nil_l.
Qed.

(** X8: the summary sends its requests in the order of the source, each at
    most once, and every one of them for the range of the month: no request
    is repeated, and there are six at most. *)
Theorem summary_follows_its_plan {S : Type} (b : backend S) (s : S) (rt : runtime)
  (supabase_client : option client) (today : date) (month_ : option unicode)
  (start end_ : date) :
  parse_month today month_ = Ok (start, end_) ->
  sent (run b (monthly_summary rt supabase_client today month_) s)
  `sublist_of` summary_plan start end_
  /\ NoDup (sent (run b (monthly_summary rt supabase_client today month_) s))
  /\ (length (sent (run b (monthly_summary rt supabase_client today month_) s)) <= 6)%nat.
Proof.
  intros H. pose proof (summary_requests b s rt supabase_client today month_) as P.
  rewrite H in P. split; [ exact P | ]. split.
  - exact (sublist_NoDup _ _ (summary_plan_NoDup start end_) P).
  - exact (sublist_length _ _ P).
Qed.

Lemma summary_of_march_follows_its_plan :
  parse_month sample_today None = Ok (mkdate 2024 3 1, mkdate 2024 4 1)
  /\ sent (run (memory_store (rpc_sums SNone (SStr "n/a")))
             (monthly_summary sample_runtime (Some sample_client) sample_today None) march)
     = [OnRpc (sum_amounts "receipts" (mkdate 2024 3 1) (mkdate 2024 4 1));
        OnRpc (sum_amounts "advances" (mkdate 2024 3 1) (mkdate 2024 4 1))]
  /\ NoDup (sent (run (memory_store (rpc_sums SNone (SStr "n/a")))
                    (monthly_summary sample_runtime (Some sample_client) sample_today None)
                    march)).
Proof.
  split; [ reflexivity | ]. split; [ reflexivity | ].
  exact (proj1 (proj2 (summary_follows_its_plan
           (memory_store (rpc_sums SNone (SStr "n/a"))) march sample_runtime
           (Some sample_client) sample_today None (mkdate 2024 3 1) (mkdate 2024 4 1)
           eq_refl))).
Defined.

(** X9: a summary that succeeds has asked for the two sums, then at most once
    for the rows of each table, then for the rows of lunch and of dinner:
    the breakdown always comes from rows.  The month it reports is
    [start.strftime("%Y-%m")], the year written as the C library writes
    it. *)
Theorem successful_summary_requests {S : Type} (b : backend S) (s : S) (rt : runtime)
  (supabase_client : option client) (today : date) (month_ : option unicode)
  (start end_ : date) (sm : summary) :
  parse_month today month_ = Ok (start, end_) ->
  outcome (run b (monthly_summary rt supabase_client today month_) s) = Ok sm ->
  exists fr fa,
    sent (run b (monthly_summary rt supabase_client today month_) s)
    = ([OnRpc (sum_amounts "receipts" start end_);
        OnRpc (sum_amounts "advances" start end_)]
       ++ fr ++ fa
       ++ [OnTable (amounts_of_meal "lunch" start end_);
           OnTable (amounts_of_meal "dinner" start end_)])%list
    /\ fr `sublist_of` [OnTable (amounts_of "receipts" start end_)]
    /\ fa `sublist_of` [OnTable (amounts_of "advances" start end_)]
    /\ summary_month sm = strftime_Ym rt start.
Proof.
  unfold monthly_summary. intros Hm H.
  destruct supabase_client as [sb | ]; cbn [require_supabase lift pbind] in *;
    [ | discriminate ].
  rewrite Hm in *. cbn [lift pbind execute_rpc] in *.
  rewrite outcome_ExecRpc in H. rewrite sent_ExecRpc.
  destruct (exec_rpc b _ s) as [[r | e] s1]; [ | discriminate ].
  cbn [pbind] in *. rewrite outcome_ExecRpc in H. rewrite sent_ExecRpc.
  destruct (exec_rpc b _ s1) as [[a | e] s2]; [ | discriminate ].
  rewrite outcome_pbind in H. rewrite sent_pbind.
  pose proof (total_of_sublist b s2 rt "receipts" r start end_) as Pr.
  destruct (run b (total_of rt "receipts" r start end_) s2)
    as [[[receipts_sum | e] s3] fr]; [ | discriminate ].
  rewrite outcome_pbind in H. rewrite sent_pbind.
  pose proof (total_of_sublist b s3 rt "advances" a start end_) as Pa.
  destruct (run b (total_of rt "advances" a start end_) s3)
    as [[[advances_sum | e] s4] fa]; [ | discriminate ].
  cbn [execute_table pbind] in *. rewrite outcome_ExecTable in H. rewrite sent_ExecTable.
  destruct (exec_table b _ s4) as [[l | e] s5]; [ | discriminate ].
  cbn [pbind] in *. rewrite outcome_ExecTable in H. rewrite sent_ExecTable.
  destruct (exec_table b _ s5) as [[d | e] s6]; [ | discriminate ].
  destruct (sum_of_amounts rt (or_empty l)) as [lunch | e]; [ | discriminate ].
  destruct (sum_of_amounts rt (or_empty d)) as [dinner | e]; [ | discriminate ].
  cbn [lift pbind run outcome sent fst snd] in *. injection H as <-.
  exists fr, fa. repeat split; assumption.
Qed.

Lemma successful_summary_of_march :
  parse_month sample_today None = Ok (mkdate 2024 3 1, mkdate 2024 4 1)
  /\ exists fr fa,
       sent (run (memory_store (rpc_sums (SInt 32) SNone))
               (monthly_summary sample_runtime (Some sample_client) sample_today None) march)
       = ([OnRpc (sum_amounts "receipts" (mkdate 2024 3 1) (mkdate 2024 4 1));
           OnRpc (sum_amounts "advances" (mkdate 2024 3 1) (mkdate 2024 4 1))]
          ++ fr ++ fa
          ++ [OnTable (amounts_of_meal "lunch" (mkdate 2024 3 1) (mkdate 2024 4 1));
              OnTable (amounts_of_meal "dinner" (mkdate 2024 3 1) (mkdate 2024 4 1))])%list
       /\ fr `sublist_of` [OnTable (amounts_of "receipts" (mkdate 2024 3 1) (mkdate 2024 4 1))]
       /\ fa `sublist_of` [OnTable (amounts_of "advances" (mkdate 2024 3 1) (mkdate 2024 4 1))]
       /\ "2024-03" = strftime_Ym sample_runtime (mkdate 2024 3 1).
Proof.
  split; [ reflexivity | ].
  exact (successful_summary_requests (memory_store (rpc_sums (SInt 32) SNone)) march
           sample_runtime (Some sample_client) sample_today None
           (mkdate 2024 3 1) (mkdate 2024 4 1) _ eq_refl eq_refl).
Defined.

Lemma Forall_of_sublist {A : Type} (P : A -> Prop) (l k : list A) :
  l `sublist_of` k -> Forall P k -> Forall P l.
Proof.
  intros H F. rewrite Forall_forall in *. intros x Hx. apply F.
  exact (elem_of_sublist _ _ _ Hx H).
Qed.

Lemma summary_plan_reads (start end_ : date) :
  Forall (fun q => reads q = true) (summary_plan start end_).
Proof. repeat constructor. Qed.

(** X10: the four GET handlers only read: whatever the arguments and the
    answers of the store, none of the requests they send is an insert. *)
Theorem get_handlers_only_read {S : Type} (b : backend S) (s : S) (rt : runtime)
  (supabase_client : option client) (today : date) (month_ : option unicode) :
  Forall (fun q => reads q = true)
    (sent (run b (list_receipts supabase_client today month_) s))
  /\ Forall (fun q => reads q = true)
       (sent (run b (list_advances supabase_client today month_) s))
  /\ Forall (fun q => reads q = true)
       (sent (run b (monthly_summary rt supabase_client today month_) s))
  /\ Forall (fun q => reads q = true)
       (sent (run b (export_csv rt supabase_client today month_) s)).
Proof.
  repeat split.
  - unfold list_receipts.
    destruct supabase_client as [sb | ]; cbn [require_supabase lift pbind];
      [ | constructor ].
    destruct (parse_month today month_) as [[start end_] | e]; cbn [lift pbind];
      [ | constructor ].
    cbn [execute_table pbind]. rewrite sent_ExecTable.
    destruct (exec_table b _ s) as [[d | e] s1]; repeat constructor.
  - unfold list_advances.
    destruct supabase_client as [sb | ]; cbn [require_supabase lift pbind];
      [ | constructor ].
    destruct (parse_month today month_) as [[start end_] | e]; cbn [lift pbind];
      [ | constructor ].
    cbn [execute_table pbind]. rewrite sent_ExecTable.
    destruct (exec_table b _ s) as [[d | e] s1]; repeat constructor.
  - pose proof (summary_requests b s rt supabase_client today month_) as P.
    destruct (parse_month today month_) as [[start end_] | e].
    + exact (Forall_of_sublist _ _ _ P (summary_plan_reads start end_)).
    + rewrite P. constructor.
  - unfold export_csv.
    destruct supabase_client as [sb | ]; cbn [require_supabase lift pbind];
      [ | constructor ].
    destruct (parse_month today month_) as [[start end_] | e]; cbn [lift pbind];
      [ | constructor ].
    cbn [execute_table pbind]. rewrite sent_ExecTable.
    destruct (exec_table b _ s) as [[r | e] s1]; [ | repeat constructor ].
    cbn [pbind]. rewrite sent_ExecTable.
    destruct (exec_table b _ s1) as [[a | e] s2]; repeat constructor.
Qed.

(** ** Amounts at the validation boundary *)

(** X11: an amount that is not greater than zero (zero, a negative number,
    NaN) is refused for an advance and for a receipt alike, before the
    handler runs: the answer is 422 and nothing is sent to the store. *)
Theorem amount_must_be_positive {S : Type} (b : backend S) (s : S)
  (supabase_client : option client) (x : float) (d : date) (meal : string)
  (m n i : option string) :
  PrimFloat.ltb 0%float x = false ->
  run b (post_advance supabase_client
           {| advance_date := d; advance_amount := x; advance_note := n |}) s
  = (Raise (ValidationError "Input should be greater than 0"), s, [])
  /\ exists detail,
       run b (post_receipt supabase_client
                {| receipt_date := d; meal_type := meal; receipt_amount := x;
                   merchant := m; receipt_note := n; image_url := i |}) s
       = (Raise (ValidationError detail), s, []).
Proof.
  intros H. split.
  - unfold post_advance, validate_AdvanceIn, validate_amount. cbn [advance_amount].
    rewrite H. reflexivity.
  - unfold post_receipt, validate_ReceiptIn, validate_amount.
    cbn [meal_type receipt_amount]. rewrite H.
    destruct (validate_meal_type meal) as [w | e] eqn:E.
    + eexists. reflexivity.
    + unfold validate_meal_type in E.
      destruct (meal_type_pattern meal).
      * destruct (normalize_meal_type meal); [ discriminate | ].
        injection E as <-. eexists. reflexivity.
      * injection E as <-. eexists. reflexivity.
Qed.

Lemma zero_amount_is_refused :
  PrimFloat.ltb 0%float 0%float = false
  /\ run (memory_store rpc_missing)
       (post_advance (Some sample_client)
          {| advance_date := mkdate 2024 3 1; advance_amount := 0%float;
             advance_note := None |}) march
     = (Raise (ValidationError "Input should be greater than 0"), march, []).
Proof.
  split; [ reflexivity | ].
  exact (proj1 (amount_must_be_positive (memory_store rpc_missing) march
                  (Some sample_client) 0%float (mkdate 2024 3 1) "lunch" None None None
                  eq_refl)).
Defined.

(** X12: every request that POST /api/advance sends is an insert into
    [advances] of the date of the body as ISO text, its amount unchanged and
    greater than zero, and its note. *)
Theorem post_advance_inserts {S : Type} (b : backend S) (s : S)
  (supabase_client : option client) (body : AdvanceIn) (q : request) :
  In q (sent (run b (post_advance supabase_client body) s)) ->
  exists data,
    q = OnTable (Insert "advances" data)
    /\ data !! "date" = Some (SStr (isoformat (advance_date body)))
    /\ data !! "amount" = Some (SFloat (advance_amount body))
    /\ data !! "note" = Some (optional_str (advance_note body))
    /\ PrimFloat.ltb 0%float (advance_amount body) = true.
Proof.
  unfold post_advance, validate_AdvanceIn, validate_amount.
  destruct (PrimFloat.ltb 0%float (advance_amount body)) eqn:E; [ | intros [] ].
  cbn [bind lift pbind]. unfold create_advance.
  destruct supabase_client as [sb | ]; cbn [require_supabase lift pbind]; [ | intros [] ].
  cbn [execute_table pbind]. rewrite sent_ExecTable.
  intros [<- | H].
  - eexists. split; [ reflexivity | ]. repeat split.
  - destruct (exec_table b _ s) as [[d | e] s1]; [ | destruct H ].
    rewrite run_lift in H. destruct H.
Qed.

Lemma advance_of_march_is_inserted :
  In (OnTable (Insert "advances"
        (advance_data {| advance_date := mkdate 2024 3 1; advance_amount := 25%float;
                         advance_note := None |})))
     (sent (run (memory_store rpc_missing)
              (post_advance (Some sample_client)
                 {| advance_date := mkdate 2024 3 1; advance_amount := 25%float;
                    advance_note := None |}) march))
  /\ exists data,
       OnTable (Insert "advances"
         (advance_data {| advance_date := mkdate 2024 3 1; advance_amount := 25%float;
                          advance_note := None |}))
       = OnTable (Insert "advances" data)
       /\ data !! "date" = Some (SStr "2024-03-01")
       /\ data !! "amount" = Some (SFloat 25%float)
       /\ data !! "note" = Some SNone
       /\ PrimFloat.ltb 0%float 25%float = true.
Proof.
  assert (In (OnTable (Insert "advances"
        (advance_data {| advance_date := mkdate 2024 3 1; advance_amount := 25%float;
                         advance_note := None |})))
     (sent (run (memory_store rpc_missing)
              (post_advance (Some sample_client)
                 {| advance_date := mkdate 2024 3 1; advance_amount := 25%float;
                    advance_note := None |}) march))) as H by (left; reflexivity).
  split; [ exact H | ].
  exact (post_advance_inserts (memory_store rpc_missing) march (Some sample_client) _ _ H).
Defined.

(** X13: every request that POST /api/receipt sends is an insert into
    [receipts] of the date of the body as ISO text, of its amount, unchanged
    and greater than zero, and of its three optional texts, null where the
    body has none. *)
Theorem post_receipt_fields {S : Type} (b : backend S) (s : S)
  (supabase_client : option client) (body : ReceiptIn) (q : request) :
  In q (sent (run b (post_receipt supabase_client body) s)) ->
  exists data,
    q = OnTable (Insert "receipts" data)
    /\ data !! "date" = Some (SStr (isoformat (receipt_date body)))
    /\ data !! "amount" = Some (SFloat (receipt_amount body))
    /\ PrimFloat.ltb 0%float (receipt_amount body) = true
    /\ data !! "merchant" = Some (optional_str (merchant body))
    /\ data !! "note" = Some (optional_str (receipt_note body))
    /\ data !! "image_url" = Some (optional_str (image_url body)).
Proof.
  unfold post_receipt, validate_ReceiptIn, validate_amount.
  destruct (validate_meal_type (meal_type body)) as [w | e]; [ | intros [] ].
  cbn [bind].
  destruct (PrimFloat.ltb 0%float (receipt_amount body)) eqn:E; [ | intros [] ].
  cbn [bind lift pbind]. unfold create_receipt.
  destruct supabase_client as [sb | ]; cbn [require_supabase lift pbind]; [ | intros [] ].
  cbn [execute_table pbind]. rewrite sent_ExecTable.
  intros [<- | H].
  - eexists. split; [ reflexivity | ]. repeat split.
  - destruct (exec_table b _ s) as [[d | e] s1]; [ | destruct H ].
    rewrite run_lift in H. destruct H.
Qed.

Lemma receipt_of_march_is_inserted :
  In (OnTable (Insert "receipts"
        (receipt_data {| receipt_date := mkdate 2024 3 5; meal_type := "dinner";
                         receipt_amount := 12.5%float; merchant := Some "Bistro";
                         receipt_note := None; image_url := None |})))
     (sent (run (memory_store rpc_missing)
              (post_receipt (Some sample_client)
                 {| receipt_date := mkdate 2024 3 5; meal_type := "dinner";
                    receipt_amount := 12.5%float; merchant := Some "Bistro";
                    receipt_note := None; image_url := None |}) march))
  /\ exists data,
       OnTable (Insert "receipts"
         (receipt_data {| receipt_date := mkdate 2024 3 5; meal_type := "dinner";
                          receipt_amount := 12.5%float; merchant := Some "Bistro";
                          receipt_note := None; image_url := None |}))
       = OnTable (Insert "receipts" data)
       /\ data !! "date" = Some (SStr "2024-03-05")
       /\ data !! "amount" = Some (SFloat 12.5%float)
       /\ PrimFloat.ltb 0%float 12.5%float = true
       /\ data !! "merchant" = Some (SStr "Bistro")
       /\ data !! "note" = Some SNone
       /\ data !! "image_url" = Some SNone.
Proof.
  assert (In (OnTable (Insert "receipts"
        (receipt_data {| receipt_date := mkdate 2024 3 5; meal_type := "dinner";
                         receipt_amount := 12.5%float; merchant := Some "Bistro";
                         receipt_note := None; image_url := None |})))
     (sent (run (memory_store rpc_missing)
              (post_receipt (Some sample_client)
                 {| receipt_date := mkdate 2024 3 5; meal_type := "dinner";
                    receipt_amount := 12.5%float; merchant := Some "Bistro";
                    receipt_note := None; image_url := None |}) march))) as H
    by (left; reflexivity).
  split; [ exact H | ].
  exact (post_receipt_fields (memory_store rpc_missing) march (Some sample_client) _ _ H).
Defined.

(** ** The text of the export *)

(** X14: nothing is quoted or escaped in a line of the export: it holds the
    five commas that separate its six columns and, besides, every comma of
    its cells.  A comma in a merchant or a note therefore shifts the columns
    that follow. *)
Theorem csv_line_commas (rt : runtime) (r : row) :
  count_char "," (receipt_line rt r)
  = (5 + total (map (fun key => count_char "," (py_str rt (get r key)))
                 ["date"; "meal_type"; "amount"; "merchant"; "note"]))%nat
  /\ count_char "," (advance_line rt r)
     = (5 + total (map (fun key => count_char "," (py_str rt (get r key)))
                    ["date"; "amount"; "note"]))%nat.
Proof.
  unfold receipt_line, advance_line. rewrite !count_char_append.
  cbn [map]. rewrite !total_cons. change (total []) with 0%nat. split.
  - change (count_char "," "receipt,") with 1%nat.
    change (count_char "," ",") with 1%nat. lia.
  - change (count_char "," "advance,") with 1%nat.
    change (count_char "," ",,") with 2%nat. lia.
Qed.

(** X15: the body of the export holds one line feed for the header and one
    for each row, and besides every line feed of the cells: a line feed in a
    note breaks its row in two. *)
Theorem csv_body_line_feeds (rt : runtime) (r a : list row) :
  count_char "010" (csv_text (csv_lines rt r a))
  = (1 + length r + length a
     + total (map (fun x => count_char "010" (receipt_line rt x)) r)
     + total (map (fun x => count_char "010" (advance_line rt x)) a))%nat.
Proof.
  unfold csv_lines. cbn [app]. rewrite csv_text_lines, !count_char_append.
  rewrite count_char_lines, map_app, length_app, !length_map.
  change (count_char "010" header) with 0%nat.
  change (count_char "010" LF) with 1%nat.
  rewrite !map_map, total_app. lia.
Qed.

(** ** The month of the summary and the default month *)

(** X16: the month that a summary reports, sent back as the month argument,
    gives the same range again, on any day and with any C library (years of
    four digits). *)
Theorem reported_month_round_trip (rt : runtime) (today today' : date)
  (month_ : option unicode) (start end_ : date) :
  parse_month today month_ = Ok (start, end_) ->
  1000 <= year start ->
  parse_month today' (Some (unicode_of (strftime_Ym rt start))) = Ok (start, end_).
Proof.
  intros H Hy4. apply parse_month_start in H as (Hd & Hy & Hm & Hend).
  destruct start as [y m d]. cbn [year month day] in *. subst d.
  rewrite replace_next_year, replace_next_month in Hend. cbn [year month] in Hend.
  rewrite strftime_Ym_four_digits by (unfold MINYEAR, MAXYEAR in Hy; cbn [year]; lia).
  cbn [year month].
  rewrite (parse_month_of_strptime today' _ y m (strptime_Ym_canonical y m Hy Hm) Hy Hm).
  unfold first_of_next_month.
  destruct (Z.eqb_spec m 12) as [-> | Nm].
  - apply date_new_Ok in Hend as (-> & Hy1 & _).
    destruct (Z.eqb_spec y MAXYEAR) as [-> | Ny]; [ unfold MAXYEAR in Hy1; lia | ].
    reflexivity.
  - apply date_new_Ok in Hend as (-> & _). rewrite andb_false_r. reflexivity.
Qed.

Lemma march_round_trip :
  parse_month sample_today None = Ok (mkdate 2024 3 1, mkdate 2024 4 1)
  /\ 1000 <= 2024
  /\ parse_month (mkdate 2031 7 9) (Some (unicode_of "2024-03"))
     = Ok (mkdate 2024 3 1, mkdate 2024 4 1).
Proof.
  split; [ reflexivity | ]. split; [ lia | ].
  apply (reported_month_round_trip sample_runtime sample_today (mkdate 2031 7 9) None
           (mkdate 2024 3 1) (mkdate 2024 4 1) eq_refl).
  cbn. lia.
Defined.

(** X17: with no month argument, or an empty one, the range is that of the
    month of the current day, whatever the day in the month; in December
    9999, the last month of the calendar, [parse_month] raises [ValueError],
    which no handler catches. *)
Theorem default_month_is_current_month (today : date) :
  valid_date today ->
  parse_month today None
  = (if (year today =? MAXYEAR) && (month today =? 12) then Raise ValueError
     else Ok (mkdate (year today) (month today) 1,
              first_of_next_month (year today) (month today)))
  /\ parse_month today (Some []) = parse_month today None.
Proof.
  intros H. split; [ | reflexivity ].
  apply date_new_Ok in H as (_ & Hy & Hm & _).
  unfold parse_month. rewrite replace_day, (date_new_first _ _ Hy Hm).
  cbn [bind]. rewrite replace_next_year, replace_next_month. cbn [year month].
  unfold first_of_next_month, MINYEAR, MAXYEAR in *.
  destruct (Z.eqb_spec (month today) 12) as [E12 | E12];
    destruct (Z.eqb_spec (year today) 9999) as [E9 | E9]; cbn [andb].
  - rewrite E9. reflexivity.
  - rewrite date_new_first by (unfold MINYEAR, MAXYEAR; lia). reflexivity.
  - rewrite date_new_first by (unfold MINYEAR, MAXYEAR; lia). reflexivity.
  - rewrite date_new_first by (unfold MINYEAR, MAXYEAR; lia). reflexivity.
Qed.

Lemma default_month_in_march :
  valid_date sample_today
  /\ parse_month sample_today None = Ok (mkdate 2024 3 1, mkdate 2024 4 1)
  /\ parse_month (mkdate 9999 12 25) None = Raise ValueError.
Proof.
  assert (valid_date sample_today) as V by reflexivity.
  assert (valid_date (mkdate 9999 12 25)) as W by reflexivity.
  split; [ exact V | ]. split.
  - exact (proj1 (default_month_is_current_month sample_today V)).
  - exact (proj1 (default_month_is_current_month (mkdate 9999 12 25) W)).
Defined.

(** ** The client and the status route *)

(** X18: the status route never reports a connection without reporting the
    URL and a key as set: the client exists only when both are set and not
    empty.  (The converse fails when [create_client] raises.) *)
Theorem connected_needs_url_and_key (e : environ)
  (create_client : string -> string -> result client) :
  report_connected (test e (supabase_client_of e create_client)) = "✅" ->
  report_supabase_url (test e (supabase_client_of e create_client)) = "✅ Set"
  /\ report_supabase_key (test e (supabase_client_of e create_client)) = "✅ Set"
  /\ exists url key sb,
       env_SUPABASE_URL e = Some url /\ SUPABASE_KEY e = Some key
       /\ create_client url key = Ok sb
       /\ require_supabase (supabase_client_of e create_client) = Ok sb.
Proof.
  unfold test, supabase_client_of. cbn [report_connected report_supabase_url report_supabase_key].
  destruct (env_SUPABASE_URL e) as [[ | c u] | ]; try discriminate.
  destruct (SUPABASE_KEY e) as [[ | d k] | ]; try discriminate.
  destruct (create_client (String c u) (String d k)) as [sb | x] eqn:E; [ | discriminate ].
  intros _. cbn [is_set]. repeat split. exists (String c u), (String d k), sb. auto.
Qed.

Lemma connected_example :
  report_connected
    (test {| env_SUPABASE_URL := Some "https://example.supabase.co";
             env_SUPABASE_SERVICE_ROLE_KEY := Some "";
             env_SUPABASE_ANON_KEY := Some "anon-key";
             env_SUPABASE_KEY := None |}
       (supabase_client_of
          {| env_SUPABASE_URL := Some "https://example.supabase.co";
             env_SUPABASE_SERVICE_ROLE_KEY := Some "";
             env_SUPABASE_ANON_KEY := Some "anon-key";
             env_SUPABASE_KEY := None |}
          (fun u k => Ok {| supabase_url := u; supabase_key := k |}))) = "✅"
  /\ SUPABASE_KEY {| env_SUPABASE_URL := Some "https://example.supabase.co";
                     env_SUPABASE_SERVICE_ROLE_KEY := Some "";
                     env_SUPABASE_ANON_KEY := Some "anon-key";
                     env_SUPABASE_KEY := None |} = Some "anon-key"
  /\ report_supabase_key
       (test {| env_SUPABASE_URL := Some "https://example.supabase.co";
                env_SUPABASE_SERVICE_ROLE_KEY := Some "";
                env_SUPABASE_ANON_KEY := Some "anon-key";
                env_SUPABASE_KEY := None |}
          (supabase_client_of
             {| env_SUPABASE_URL := Some "https://example.supabase.co";
                env_SUPABASE_SERVICE_ROLE_KEY := Some "";
                env_SUPABASE_ANON_KEY := Some "anon-key";
                env_SUPABASE_KEY := None |}
             (fun u k => Ok {| supabase_url := u; supabase_key := k |}))) = "✅ Set".
Proof.
  split; [ reflexivity | ]. split; [ reflexivity | ].
  exact (proj1 (proj2 (connected_needs_url_and_key
           {| env_SUPABASE_URL := Some "https://example.supabase.co";
              env_SUPABASE_SERVICE_ROLE_KEY := Some "";
              env_SUPABASE_ANON_KEY := Some "anon-key";
              env_SUPABASE_KEY := None |}
           (fun u k => Ok {| supabase_url := u; supabase_key := k |}) eq_refl))).
Defined.

(** ** Sums computed in process *)

(** X19: the amounts of the rows are converted one by one: the conversion
    succeeds exactly when every row holds an [amount] that [float] accepts,
    and it then yields one float for each row, in order.  One row without a
    usable amount makes the whole sum fail. *)
Theorem amounts_all_or_nothing (rt : runtime) (rows : list row) (xs : list float) :
  amounts rt rows = Ok xs
  <-> Forall2 (fun r x => exists v, r !! "amount" = Some v /\ float_of_scalar rt v = Ok x)
        rows xs.
Proof.
  revert xs. induction rows as [ | r rows IH]; intros xs; cbn [amounts].
  - split.
    + intros H. injection H as <-. constructor.
    + intros H. inversion H. reflexivity.
  - unfold getitem_amount. split.
    + destruct (r !! "amount") as [v | ] eqn:Ev; cbn [bind]; [ | discriminate ].
      destruct (float_of_scalar rt v) as [x | e] eqn:Ex; cbn [bind]; [ | discriminate ].
      destruct (amounts rt rows) as [fs | e] eqn:Er; cbn [bind]; [ | discriminate ].
      intros H. injection H as <-. constructor; [ eauto | ]. apply IH. reflexivity.
    + intros H. inversion H as [ | r' x rows' fs (v & Ev & Ex) Hrest]. subst.
      rewrite Ev. cbn [bind]. rewrite Ex. cbn [bind].
      apply IH in Hrest. rewrite Hrest. reflexivity.
Qed.

(** X20: when the conversion fails, the exception is that of the first row,
    in order, whose amount is missing or is no number: the rows before it
    were converted, the rows after it are not looked at. *)
Theorem first_bad_amount_decides (rt : runtime) (good bad_rows : list row) (bad : row)
  (xs : list float) (e : exn) :
  amounts rt good = Ok xs ->
  (let? v := getitem_amount bad in float_of_scalar rt v) = Raise e ->
  sum_of_amounts rt (good ++ bad :: bad_rows) = Raise e.
Proof.
  revert xs. induction good as [ | r good IH]; intros xs Hg Hb.
  - unfold sum_of_amounts. cbn [app amounts].
    destruct (getitem_amount bad) as [v | e1]; cbn [bind] in *.
    + rewrite Hb. reflexivity.
    + injection Hb as <-. reflexivity.
  - unfold sum_of_amounts in *. cbn [app amounts] in *.
    destruct (getitem_amount r) as [v | e1]; cbn [bind] in *; [ | discriminate ].
    destruct (float_of_scalar rt v) as [x | e1]; cbn [bind] in *; [ | discriminate ].
    destruct (amounts rt good) as [fs | e1] eqn:Eg; cbn [bind] in *; [ | discriminate ].
    specialize (IH fs eq_refl Hb).
    destruct (amounts rt (good ++ bad :: bad_rows)) as [ys | e2]; cbn [bind] in *;
      [ discriminate | ].
    injection IH as <-. reflexivity.
Qed.

(** A null amount ([TypeError]) in front of a row without the column
    ([KeyError]). *)
Lemma null_amount_comes_first :
  amounts sample_runtime [receipt_row "2024-03-05" "lunch" (SInt 12) SNone SNone]
  = Ok [12%float]
  /\ (let? v := getitem_amount (receipt_row "2024-03-06" "lunch" SNone SNone SNone) in
      float_of_scalar sample_runtime v) = Raise TypeError
  /\ sum_of_amounts sample_runtime
       [receipt_row "2024-03-05" "lunch" (SInt 12) SNone SNone;
        receipt_row "2024-03-06" "lunch" SNone SNone SNone;
        ∅]
     = Raise TypeError.
Proof.
  split; [ reflexivity | ]. split; [ reflexivity | ].
  exact (first_bad_amount_decides sample_runtime
           [receipt_row "2024-03-05" "lunch" (SInt 12) SNone SNone] [∅]
           (receipt_row "2024-03-06" "lunch" SNone SNone SNone) [12%float] TypeError
           eq_refl eq_refl).
Defined.

(** ** A usable result of the routine *)

Lemma total_of_usable (rt : runtime) (table : string) (data : json) (start end_ : date) :
  usable data = Ok true -> total_of rt table data start end_ = lift (rpc_sum rt data).
Proof. intros H. unfold total_of. rewrite H. reflexivity. Qed.

(** X21: a result of [sum_amounts] that passes the test of lines 188 and 200
    is taken as it is: the rows of that table are not fetched, and the total
    returned is [float(data[0]["sum"] or 0)] rounded to two decimals,
    whatever the rows of the table are. *)
Theorem usable_result_is_trusted {S : Type} (b : backend S) (s0 s1 s2 : S)
  (rt : runtime) (sb : client) (today : date) (month_ : option unicode)
  (start end_ : date) (r a : json) :
  parse_month today month_ = Ok (start, end_) ->
  exec_rpc b (sum_amounts "receipts" start end_) s0 = (Ok r, s1) ->
  exec_rpc b (sum_amounts "advances" start end_) s1 = (Ok a, s2) ->
  let answer := run b (monthly_summary rt (Some sb) today month_) s0 in
  (usable r = Ok true ->
   ~ In (OnTable (amounts_of "receipts" start end_)) (sent answer)
   /\ forall sm, outcome answer = Ok sm ->
      exists x, rpc_sum rt r = Ok x /\ receipts_total sm = py_round2 x)
  /\ (usable a = Ok true ->
      ~ In (OnTable (amounts_of "advances" start end_)) (sent answer)
      /\ forall sm, outcome answer = Ok sm ->
         exists x, rpc_sum rt a = Ok x /\ advances_total sm = py_round2 x).
Proof.
  intros Hm Hr Ha answer. subst answer. unfold monthly_summary.
  cbn [require_supabase lift pbind]. rewrite Hm. cbn [lift pbind execute_rpc].
  rewrite sent_ExecRpc, outcome_ExecRpc, Hr. cbn [pbind].
  rewrite sent_ExecRpc, outcome_ExecRpc, Ha.
  split; intros Hu.
  - rewrite sent_pbind, outcome_pbind.
    rewrite (total_of_usable rt "receipts" r start end_ Hu), run_lift.
    cbn [sent snd app]. split.
    + intros [H | [H | H]]; [ discriminate H | discriminate H | ].
      destruct (rpc_sum rt r) as [x | e]; [ | destruct H ].
      apply summary_tail_sends in H as [H | [H | H]]; discriminate H.
    + intros sm H. destruct (rpc_sum rt r) as [x | e]; [ | discriminate ].
      rewrite outcome_pbind in H.
      destruct (run b (total_of rt "advances" a start end_) s2)
        as [[[advances_sum | e] s4] t4]; [ | discriminate ].
      cbn [execute_table pbind] in H. rewrite outcome_ExecTable in H.
      destruct (exec_table b _ s4) as [[l | e] s5]; [ | discriminate ].
      cbn [pbind] in H. rewrite outcome_ExecTable in H.
      destruct (exec_table b _ s5) as [[d | e] s6]; [ | discriminate ].
      destruct (sum_of_amounts rt (or_empty l)) as [lunch | e]; [ | discriminate ].
      destruct (sum_of_amounts rt (or_empty d)) as [dinner | e]; [ | discriminate ].
      cbn [lift pbind run outcome fst] in H. injection H as <-.
      exists x. split; reflexivity.
  - rewrite sent_pbind, outcome_pbind.
    destruct (run b (total_of rt "receipts" r start end_) s2)
      as [[[receipts_sum | e] s3] t3] eqn:R.
    + rewrite sent_pbind, outcome_pbind.
      rewrite (total_of_usable rt "advances" a start end_ Hu), run_lift.
      cbn [sent snd app]. split.
      * intros [H | [H | H]]; [ discriminate H | discriminate H | ].
        apply in_app_or in H as [H | H].
        { assert (In (OnTable (amounts_of "advances" start end_))
                    (sent (run b (total_of rt "receipts" r start end_) s2))) as H'
            by (rewrite R; exact H).
          apply total_of_sends in H'. discriminate H'. }
        destruct (rpc_sum rt a) as [x | e]; [ | destruct H ].
        cbn [execute_table pbind] in H. rewrite sent_ExecTable in H.
        destruct H as [H | H]; [ discriminate H | ].
        destruct (exec_table b _ s3) as [[l | e] s5]; [ | destruct H ].
        cbn [pbind] in H. rewrite sent_ExecTable in H.
        destruct H as [H | H]; [ discriminate H | ].
        destruct (exec_table b _ s5) as [[d | e] s6]; [ | destruct H ].
        destruct (sum_of_amounts rt (or_empty l)) as [lunch | e]; [ | destruct H ].
        destruct (sum_of_amounts rt (or_empty d)) as [dinner | e]; destruct H.
      * intros sm H. destruct (rpc_sum rt a) as [x | e]; [ | discriminate ].
        cbn [execute_table pbind] in H. rewrite outcome_ExecTable in H.
        destruct (exec_table b _ s3) as [[l | e] s5]; [ | discriminate ].
        cbn [pbind] in H. rewrite outcome_ExecTable in H.
        destruct (exec_table b _ s5) as [[d | e] s6]; [ | discriminate ].
        destruct (sum_of_amounts rt (or_empty l)) as [lunch | e]; [ | discriminate ].
        destruct (sum_of_amounts rt (or_empty d)) as [dinner | e]; [ | discriminate ].
        cbn [lift pbind run outcome fst] in H. injection H as <-.
        exists x. split; reflexivity.
    + cbn [sent snd]. split; [ | intros sm H; discriminate H ].
      intros [H | [H | H]]; [ discriminate H | discriminate H | ].
      rewrite app_nil_r in H.
      assert (In (OnTable (amounts_of "advances" start end_))
                (sent (run b (total_of rt "receipts" r start end_) s2))) as H'
        by (rewrite R; exact H).
      apply total_of_sends in H'. discriminate H'.
Qed.

(** The routine says 99.5 for receipts where the rows of March add up to 32. *)
Lemma routine_over_rows :
  usable (JList [JDict {[ "sum" := JScalar (SFloat 99.5) ]}]) = Ok true
  /\ outcome (run (memory_store (rpc_sums (SFloat 99.5) (SInt 25)))
                (monthly_summary sample_runtime (Some sample_client) sample_today None) march)
     = Ok {| summary_month := "2024-03"; receipts_total := 99.5%float;
             advances_total := 25%float; lunch_total := 12%float;
             dinner_total := 20%float; net := 74.5%float |}
  /\ ~ In (OnTable (amounts_of "receipts" (mkdate 2024 3 1) (mkdate 2024 4 1)))
          (sent (run (memory_store (rpc_sums (SFloat 99.5) (SInt 25)))
                   (monthly_summary sample_runtime (Some sample_client) sample_today None)
                   march)).
Proof.
  split; [ reflexivity | ]. split; [ reflexivity | ].
  destruct (usable_result_is_trusted (memory_store (rpc_sums (SFloat 99.5) (SInt 25)))
              march march march sample_runtime sample_client sample_today None
              (mkdate 2024 3 1) (mkdate 2024 4 1) _ _ eq_refl eq_refl eq_refl)
    as [Hr _].
  exact (proj1 (Hr eq_refl)).
Defined.

(** X22: the test of lines 188 and 200 lets through a first item that is no
    dict: a list that holds the text [sum], or a text that contains it.
    Reading [data[0]["sum"]] then raises [TypeError], which ends the request;
    only a dict with the key [sum] gives a total. *)
Theorem usable_is_not_enough (rt : runtime) (data : json) (x : float) :
  usable data = Ok true ->
  (rpc_sum rt data = Ok x ->
   exists d rest v,
     data = JList (JDict d :: rest) /\ d !! "sum" = Some v /\ py_float rt (or_zero v) = Ok x)
  /\ ((forall d rest, data <> JList (JDict d :: rest)) -> rpc_sum rt data = Raise TypeError).
Proof.
  intros H. destruct data as [v | [ | first rest] | d]; try discriminate H.
  cbn [usable] in H. split.
  - unfold rpc_sum, getitem_sum.
    destruct first as [v | xs | d]; try discriminate.
    destruct (d !! "sum") as [v | ] eqn:E; [ | discriminate ].
    cbn [bind]. intros Hx. exists d, rest, v. auto.
  - intros N. destruct first as [v | xs | d]; try reflexivity.
    exfalso. exact (N d rest eq_refl).
Qed.

Lemma text_item_is_not_enough :
  usable (JList [JScalar (SStr "no sum yet")]) = Ok true
  /\ rpc_sum sample_runtime (JList [JScalar (SStr "no sum yet")]) = Raise TypeError
  /\ outcome (run (memory_store (rpc_answers (JList [JScalar (SStr "no sum yet")])))
                (monthly_summary sample_runtime (Some sample_client) sample_today None) march)
     = Raise TypeError.
Proof.
  assert (usable (JList [JScalar (SStr "no sum yet")]) = Ok true) as H by reflexivity.
  split; [ exact H | ]. split; [ | reflexivity ].
  apply (proj2 (usable_is_not_enough sample_runtime _ 0%float H)).
  intros d rest E. discriminate E.
Defined.

(** ** The validator of [meal_type] *)

Lemma lower_char_idempotent (c : ascii) : lower_char (lower_char c) = lower_char c.
Proof. destruct c as [[] [] [] [] [] [] [] []]; reflexivity. Qed.

Lemma lower_idempotent (s : string) : lower (lower s) = lower s.
Proof.
  induction s as [ | c s IH]; [ reflexivity | ].
  cbn [lower]. rewrite lower_char_idempotent, IH. reflexivity.
Qed.

(** X23: the validator of lines 41-46, taken alone, does not look at the
    case: a text and its lower-case form get the same answer, and a value it
    returns is returned unchanged when validated again. *)
Theorem normalize_meal_type_ignores_case (v : string) :
  normalize_meal_type (lower v) = normalize_meal_type v
  /\ forall w, normalize_meal_type v = Ok w ->
       normalize_meal_type w = Ok w /\ meal_type_pattern w = true.
Proof.
  split.
  - unfold normalize_meal_type. rewrite lower_idempotent. reflexivity.
  - intros w H. apply normalize_meal_type_Ok in H as [_ [-> | ->]]; split; reflexivity.
Qed.
(** ** Dates as ISO texts *)

Lemma date_ltb_spec (a b : date) :
  date_ltb a b = true
  <-> year a < year b
      \/ (year a = year b
          /\ (month a < month b \/ (month a = month b /\ day a < day b))).
Proof.
  unfold date_ltb.
  rewrite orb_true_iff, andb_true_iff, orb_true_iff, andb_true_iff.
  rewrite !Z.ltb_lt, !Z.eqb_eq. reflexivity.
Qed.

Lemma compare_cons (c1 c2 : ascii) (s1 s2 : string) :
  String.compare (String c1 s1) (String c2 s2)
  = match Ascii.compare c1 c2 with
    | Eq => String.compare s1 s2
    | ne => ne
    end.
Proof. reflexivity. Qed.

Lemma ascii_compare_refl (c : ascii) : Ascii.compare c c = Eq.
Proof. unfold Ascii.compare. apply N.compare_refl. Qed.

Lemma compare_refl (s : string) : String.compare s s = Eq.
Proof.
  induction s as [ | c s IH]; [ reflexivity | ].
  rewrite compare_cons, ascii_compare_refl. exact IH.
Qed.

(** Two texts of the same length in front of two others: the fronts decide,
    unless they are equal. *)
Lemma compare_append (a b r r' : string) :
  String.length a = String.length b ->
  String.compare (a ++ r) (b ++ r')
  = match String.compare a b with
    | Eq => String.compare r r'
    | ne => ne
    end.
Proof.
  revert b. induction a as [ | x a IH]; intros [ | y b] L; try discriminate L.
  - reflexivity.
  - change (String.compare (String x (a ++ r)) (String y (b ++ r'))
            = match String.compare (String x a) (String y b) with
              | Eq => String.compare r r'
              | ne => ne
              end).
    rewrite !compare_cons.
    destruct (Ascii.compare x y); [ | reflexivity | reflexivity ].
    apply IH. simpl in L. congruence.
Qed.

Lemma digit_compare (j k : Z) :
  0 <= j <= 9 -> 0 <= k <= 9 -> Ascii.compare (digit j) (digit k) = (j ?= k).
Proof.
  intros Hj Hk.
  assert (j = 0 \/ j = 1 \/ j = 2 \/ j = 3 \/ j = 4 \/ j = 5 \/ j = 6 \/ j = 7
          \/ j = 8 \/ j = 9) as Cj by lia.
  assert (k = 0 \/ k = 1 \/ k = 2 \/ k = 3 \/ k = 4 \/ k = 5 \/ k = 6 \/ k = 7
          \/ k = 8 \/ k = 9) as Ck by lia.
  repeat (destruct Cj as [-> | Cj]); try subst j;
    repeat (destruct Ck as [-> | Ck]); try subst k; reflexivity.
Qed.

#[local] Ltac div_mod := Z.div_mod_to_equations; lia.

Lemma digit_mod (n : Z) : digit n = digit (n mod 10).
Proof. unfold digit. rewrite Z.mod_mod by lia. reflexivity. Qed.

Lemma lexicographic (a b c d : Z) (k : Z) :
  0 < k -> 0 <= b < k -> 0 <= d < k ->
  match a ?= c with
  | Eq => b ?= d
  | ne => ne
  end = (a * k + b ?= c * k + d).
Proof.
  intros Hk Hb Hd.
  destruct (Z.compare_spec a c) as [E | E | E].
  - subst c. destruct (Z.compare_spec b d) as [F | F | F]; symmetry.
    + apply Z.compare_eq_iff. lia.
    + apply Z.compare_lt_iff. lia.
    + apply Z.compare_gt_iff. lia.
  - symmetry. apply Z.compare_lt_iff.
    assert ((a + 1) * k <= c * k) by (apply Z.mul_le_mono_nonneg_r; lia). lia.
  - symmetry. apply Z.compare_gt_iff.
    assert ((c + 1) * k <= a * k) by (apply Z.mul_le_mono_nonneg_r; lia). lia.
Qed.

Lemma zfill2_compare (j k : Z) :
  0 <= j < 100 -> 0 <= k < 100 -> String.compare (zfill2 j) (zfill2 k) = (j ?= k).
Proof.
  intros Hj Hk. unfold zfill2. rewrite !compare_cons.
  rewrite (digit_mod j), (digit_mod k).
  rewrite !digit_compare by div_mod.
  change (String.compare "" "") with Eq.
  assert (match j mod 10 ?= k mod 10 with
          | Eq => Eq
          | Lt => Lt
          | Gt => Gt
          end = (j mod 10 ?= k mod 10)) as -> by (destruct (j mod 10 ?= k mod 10); reflexivity).
  rewrite (lexicographic (j / 10) (j mod 10) (k / 10) (k mod 10) 10)
    by div_mod.
  f_equal; div_mod.
Qed.

Lemma zfill4_split (y : Z) : zfill4 y = zfill2 (y / 100) ++ zfill2 (y mod 100).
Proof.
  unfold zfill4, zfill2.
  change (String (digit (y / 1000)) (String (digit (y / 100)) (String (digit (y / 10)) (String (digit y) "")))
          = String (digit (y / 100 / 10)) (String (digit (y / 100))
              (String (digit (y mod 100 / 10)) (String (digit (y mod 100)) "")))).
  rewrite (digit_mod (y / 10)), (digit_mod (y mod 100 / 10)).
  rewrite (digit_mod y), (digit_mod (y mod 100)).
  replace (y / 100 / 10) with (y / 1000) by div_mod.
  replace (y mod 100 / 10 mod 10) with (y / 10 mod 10) by div_mod.
  replace (y mod 100 mod 10) with (y mod 10) by div_mod.
  reflexivity.
Qed.

Lemma zfill4_compare (y z : Z) :
  0 <= y <= 9999 -> 0 <= z <= 9999 -> String.compare (zfill4 y) (zfill4 z) = (y ?= z).
Proof.
  intros Hy Hz. rewrite !zfill4_split, compare_append by reflexivity.
  rewrite !zfill2_compare by div_mod.
  rewrite (lexicographic (y / 100) (y mod 100) (z / 100) (z mod 100) 100)
    by div_mod.
  f_equal; div_mod.
Qed.

(** The ISO texts of two dates compare as the triples of their fields. *)
Lemma isoformat_compare (a b : date) :
  0 <= year a <= 9999 -> 0 <= year b <= 9999 ->
  0 <= month a < 100 -> 0 <= month b < 100 ->
  0 <= day a < 100 -> 0 <= day b < 100 ->
  String.compare (isoformat a) (isoformat b)
  = match year a ?= year b with
    | Eq => match month a ?= month b with
            | Eq => day a ?= day b
            | ne => ne
            end
    | ne => ne
    end.
Proof.
  intros Hya Hyb Hma Hmb Hda Hdb. unfold isoformat.
  rewrite compare_append by reflexivity. rewrite zfill4_compare by assumption.
  destruct (year a ?= year b); [ | reflexivity | reflexivity ].
  rewrite (compare_append "-" "-") by reflexivity.
  change (String.compare "-" "-") with Eq. cbv iota.
  rewrite compare_append by reflexivity. rewrite zfill2_compare by assumption.
  destruct (month a ?= month b); [ | reflexivity | reflexivity ].
  rewrite (compare_append "-" "-") by reflexivity.
  change (String.compare "-" "-") with Eq. cbv iota.
  apply zfill2_compare; assumption.
Qed.

Lemma valid_date_bounds (d : date) :
  valid_date d ->
  1 <= year d <= 9999 /\ 1 <= month d <= 12 /\ 1 <= day d <= 31.
Proof.
  intros H. apply date_new_Ok in H as (_ & Hy & Hm & Hd).
  unfold MINYEAR, MAXYEAR in Hy. split; [ exact Hy | ]. split; [ exact Hm | ].
  assert (days_in_month (year d) (month d) <= 31); [ | lia ].
  unfold days_in_month.
  assert (month d = 1 \/ month d = 2 \/ month d = 3 \/ month d = 4 \/ month d = 5
          \/ month d = 6 \/ month d = 7 \/ month d = 8 \/ month d = 9 \/ month d = 10
          \/ month d = 11 \/ month d = 12) as C by lia.
  repeat (destruct C as [-> | C]); try rewrite C; try lia;
    destruct (is_leap (year d)); lia.
Qed.

Lemma isoformat_ltb (a b : date) :
  valid_date a -> valid_date b ->
  String.ltb (isoformat a) (isoformat b) = date_ltb a b.
Proof.
  intros Ha Hb.
  apply valid_date_bounds in Ha as (Hya & Hma & Hda).
  apply valid_date_bounds in Hb as (Hyb & Hmb & Hdb).
  unfold String.ltb. rewrite isoformat_compare by lia.
  destruct (date_ltb a b) eqn:L.
  - apply date_ltb_spec in L.
    destruct (Z.compare_spec (year a) (year b));
      destruct (Z.compare_spec (month a) (month b));
      destruct (Z.compare_spec (day a) (day b)); try reflexivity; lia.
  - destruct (Z.compare_spec (year a) (year b));
      destruct (Z.compare_spec (month a) (month b));
      destruct (Z.compare_spec (day a) (day b)); try reflexivity;
      exfalso; apply not_true_iff_false in L; apply L; apply date_ltb_spec; lia.
Qed.

Lemma isoformat_leb (a b : date) :
  valid_date a -> valid_date b ->
  String.leb (isoformat a) (isoformat b) = negb (date_ltb b a).
Proof.
  intros Ha Hb.
  apply valid_date_bounds in Ha as (Hya & Hma & Hda).
  apply valid_date_bounds in Hb as (Hyb & Hmb & Hdb).
  unfold String.leb. rewrite isoformat_compare by lia.
  destruct (date_ltb b a) eqn:L; cbn [negb].
  - apply date_ltb_spec in L.
    destruct (Z.compare_spec (year a) (year b));
      destruct (Z.compare_spec (month a) (month b));
      destruct (Z.compare_spec (day a) (day b)); try reflexivity; lia.
  - destruct (Z.compare_spec (year a) (year b));
      destruct (Z.compare_spec (month a) (month b));
      destruct (Z.compare_spec (day a) (day b)); try reflexivity;
      exfalso; apply not_true_iff_false in L; apply L; apply date_ltb_spec; lia.
Qed.

(** X24: the filters carry dates as ISO texts.  On the dates of the calendar
    the texts are ordered as the dates are, and two dates with the same text
    are the same date: a store that keeps the column as text selects with
    [gte] and [lt] what it would select on dates. *)
Theorem isoformat_keeps_order (a b : date) :
  valid_date a -> valid_date b ->
  String.ltb (isoformat a) (isoformat b) = date_ltb a b
  /\ String.leb (isoformat a) (isoformat b) = negb (date_ltb b a)
  /\ (isoformat a = isoformat b -> a = b).
Proof.
  intros Ha Hb.
  split; [ exact (isoformat_ltb a b Ha Hb) | ].
  split; [ exact (isoformat_leb a b Ha Hb) | ].
  apply valid_date_bounds in Ha as (Hya & Hma & Hda).
  apply valid_date_bounds in Hb as (Hyb & Hmb & Hdb).
  intros E.
  assert (String.compare (isoformat a) (isoformat b) = Eq) as C
    by (rewrite E; apply compare_refl).
  rewrite isoformat_compare in C by lia.
  destruct a as [ya ma da], b as [yb mb db]. cbn [year month day] in *.
  destruct (Z.compare_spec ya yb); try discriminate C.
  destruct (Z.compare_spec ma mb); try discriminate C.
  destruct (Z.compare_spec da db); try discriminate C.
  congruence.
Qed.

Lemma isoformat_order_in_march :
  valid_date (mkdate 2024 3 5) /\ valid_date (mkdate 2024 12 1)
  /\ String.ltb "2024-03-05" "2024-12-01" = true.
Proof.
  assert (valid_date (mkdate 2024 3 5)) as V by reflexivity.
  assert (valid_date (mkdate 2024 12 1)) as W by reflexivity.
  split; [ exact V | ]. split; [ exact W | ].
  exact (proj1 (isoformat_keeps_order (mkdate 2024 3 5) (mkdate 2024 12 1) V W)).
Defined.

(** X25: the range of a month holds the days of that month and no other day
    of the calendar: a date is at or after the start and before the end
    exactly when its year and its month are those of the start.  The same
    holds of the ISO texts that the filters carry. *)
Theorem range_holds_the_month (today : date) (month_ : option unicode)
  (start end_ d : date) :
  parse_month today month_ = Ok (start, end_) ->
  valid_date d ->
  (negb (date_ltb d start) && date_ltb d end_ = true
   <-> year d = year start /\ month d = month start)
  /\ (String.leb (isoformat start) (isoformat d)
      && String.ltb (isoformat d) (isoformat end_) = true
      <-> year d = year start /\ month d = month start).
Proof.
  intros H Hd.
  assert (valid_date start /\ valid_date end_) as [Vs Ve].
  { apply parse_month_start in H as (Hd1 & Hy & Hm & Hend).
    destruct start as [y m d1]. cbn [year month day] in *. subst d1. split.
    - exact (date_new_first y m Hy Hm).
    - rewrite replace_next_year, replace_next_month in Hend. cbn [year month] in Hend.
      destruct (m =? 12); pose proof Hend as Hend';
        apply date_new_Ok in Hend as [-> _]; exact Hend'. }
  assert (negb (date_ltb d start) && date_ltb d end_ = true
          <-> year d = year start /\ month d = month start) as D.
  { apply parse_month_start in H as (Hd1 & Hy & Hm & Hend).
    rewrite replace_next_year, replace_next_month in Hend.
    apply valid_date_bounds in Hd as (Hyd & Hmd & Hdd).
    rewrite andb_true_iff, negb_true_iff, <- not_true_iff_false, !date_ltb_spec.
    destruct (Z.eqb_spec (month start) 12) as [E12 | E12];
      apply date_new_Ok in Hend as (-> & _); cbn [year month day]; lia. }
  split; [ exact D | ].
  rewrite (isoformat_leb start d Vs Hd), (isoformat_ltb d end_ Hd Ve).
  exact D.
Qed.

Lemma leap_day_is_in_february :
  parse_month sample_today (Some (unicode_of "2024-02")) = Ok (mkdate 2024 2 1, mkdate 2024 3 1)
  /\ valid_date (mkdate 2024 2 29)
  /\ String.leb "2024-02-01" "2024-02-29" && String.ltb "2024-02-29" "2024-03-01" = true.
Proof.
  assert (valid_date (mkdate 2024 2 29)) as V by reflexivity.
  split; [ reflexivity | ]. split; [ exact V | ].
  apply (proj2 (range_holds_the_month sample_today (Some (unicode_of "2024-02"))
                  (mkdate 2024 2 1) (mkdate 2024 3 1) (mkdate 2024 2 29) eq_refl V)).
  split; reflexivity.
Defined.
